(** * Triton resource reconciler of kubicorn: model and verified properties

    Shallow embedding of
      - package [resources] of the Triton provider: the methods [Actual],
        [Expected], [Apply], [Delete], [immutableRender] of [ResourceGroup]
        and the poller [getMasterIP];
      - [cloud/triton/tritonSDK/sdk.go]: the constructor [NewSdk].

    Go values are modelled as follows.
      - [string] is [string]; [error] is the text of [Error()], and a Go
        [error] result is an [option error] ([None] is [nil]).
      - A pointer that the code dereferences is an [option]; dereferencing
        [None] is the run-time panic of Go.
      - [map[string]string] is [gmap string string]; a slice is a [list].
      - The remote cloud ([Sdk.Compute], [Sdk.Network]) is a record of
        answer functions; every call is appended to a trace kept in the
        world, next to the object behind the [*cluster.Cluster] pointer
        that [Apply] and [Delete] mutate in place.
      - [logger.Debug] and the [json.Marshal] that only feeds it have no
        effect on results and are left out. *)

From Stdlib Require Import String List ZArith Lia.
From stdpp Require Import base option list strings gmap.

Local Open Scope string_scope.

(** ** Go run-time values *)

Definition error : Type := string.

(** Result of running a piece of Go code: a normal completion or a panic. *)
Inductive Res (A : Type) : Type :=
| Done (a : A)
| Panic (reason : string).
Arguments Done {A} a.
Arguments Panic {A} reason.

Definition nil_dereference : string :=
  "invalid memory address or nil pointer dereference".
Definition index_out_of_range : string := "index out of range".

(** ** Package [compute] and [network] of triton-go (the fields the code reads) *)

Module Instance.
Record t : Type := { ID : string; Name : string; IPs : list string }.
End Instance.

Module Image.
Record t : Type := { ID : string; Name : string; Version : string }.
(** [var img compute.Image]: the zero value. *)
Definition zero : t := {| ID := ""; Name := ""; Version := "" |}.
End Image.

Module Network.
Record t : Type := { Id : string; Name : string }.
End Network.

Module GetInstanceInput.
Record t : Type := { ID : string }.
End GetInstanceInput.

Module ListImagesInput.
Record t : Type := { Name : string; Version : string }.
End ListImagesInput.

Module CreateInstanceInput.
Record t : Type := {
  Name : string;
  Package : string;
  Image : string;
  Networks : list string;
  Metadata : gmap string string;
  Tags : gmap string string;
  CNS_Services : list string
}.
End CreateInstanceInput.

(** ** Package [cluster] *)

(** Modelled from the spec: the role constants of the absent package
    [cluster]; the spec names the two roles ControlPlaneMember and
    WorkerMember, and the code compares [ServerPool.Type] with them. *)
Definition ServerPoolTypeMaster : string := "master".
Definition ServerPoolTypeNode : string := "node".

Module ServerPool.
Record t : Type := {
  Name : string;
  Type_ : string;
  Identifier : string;
  BootstrapScripts : list string
}.
Definition set_Identifier (id : string) (sp : t) : t :=
  {| Name := Name sp; Type_ := Type_ sp; Identifier := id;
     BootstrapScripts := BootstrapScripts sp |}.
End ServerPool.

(** Modelled from the spec: the cluster state of the absent package
    [cluster]. The spec describes it as the shared configuration object
    "passed by reference" that carries the "network endpoint of the control
    plane, listening port, and a free-form key/value injection map", which
    Apply "reads and writes". [ProviderConfig()] therefore hands out the
    configuration object of the cluster itself, and a write through it is
    a write to the cluster; [SetProviderConfig] stores a configuration. *)
Module KubernetesAPI.
Record t : Type := { Endpoint : string; Port : string }.
Definition zero : t := {| Endpoint := ""; Port := "" |}.
End KubernetesAPI.

Module ProviderConfig.
Record t : Type := {
  GroupIdentifier : string;
  API : KubernetesAPI.t;
  ItemMap : gmap string string
}.
(** [&cluster.ControlPlaneProviderConfig{}] *)
Definition zero : t :=
  {| GroupIdentifier := ""; API := KubernetesAPI.zero; ItemMap := ∅ |}.
Definition set_Endpoint (ip : string) (pc : t) : t :=
  {| GroupIdentifier := GroupIdentifier pc;
     API := {| KubernetesAPI.Endpoint := ip;
               KubernetesAPI.Port := KubernetesAPI.Port (API pc) |};
     ItemMap := ItemMap pc |}.
Definition set_Item (k v : string) (pc : t) : t :=
  {| GroupIdentifier := GroupIdentifier pc; API := API pc;
     ItemMap := <[k := v]> (ItemMap pc) |}.
Definition set_GroupIdentifier (g : string) (pc : t) : t :=
  {| GroupIdentifier := g; API := API pc; ItemMap := ItemMap pc |}.
End ProviderConfig.

Module Cluster.
Record t : Type := { Name : string; Config : ProviderConfig.t }.
Definition set_Name (n : string) (c : t) : t :=
  {| Name := n; Config := Config c |}.
Definition SetProviderConfig (pc : ProviderConfig.t) (c : t) : t :=
  {| Name := Name c; Config := pc |}.
Definition Endpoint (c : t) : string :=
  KubernetesAPI.Endpoint (ProviderConfig.API (Config c)).
Definition Port (c : t) : string :=
  KubernetesAPI.Port (ProviderConfig.API (Config c)).
Definition Item (k : string) (c : t) : option string :=
  ProviderConfig.ItemMap (Config c) !! k.
End Cluster.

(** ** Package [resources] *)

Definition MasterIPAttempts : nat := 100.
Definition MasterIPSleepSecondsPerAttempt : Z := 5.
Definition PackageName : string := "k4-highcpu-kvm-1.75G".
Definition ImageName : string := "ubuntu-certified-16.04".
Definition ImageVersion : string := "20180222".
Definition NetworkName : string := "Joyent-SDC-Public".
Definition FabricNetwork : string := "My-Fabric-Network".

Module Shared.
Record t : Type := {
  Name : string;
  Tags : gmap string string;
  Identifier : string
}.
End Shared.

Module ResourceGroup.
Record t : Type := {
  Shared_ : Shared.t;
  BootstrapScripts : list string;
  ServerPool_ : option ServerPool.t
}.
(** Fields promoted from the embedded [Shared]. *)
Definition Name (r : t) : string := Shared.Name (Shared_ r).
Definition Tags (r : t) : gmap string string := Shared.Tags (Shared_ r).
Definition Identifier (r : t) : string := Shared.Identifier (Shared_ r).
End ResourceGroup.

(** ** The world: remote calls and the shared cluster object *)

Inductive Call : Type :=
| CallInstancesGet (input : GetInstanceInput.t)
| CallInstancesCreate (input : CreateInstanceInput.t)
| CallImagesList (input : ListImagesInput.t)
| CallNetworkList
| CallSleep (seconds : Z).

(** The package-level [Sdk] handle. The answer of [Instances().Get] may
    change from one call to the next, so it takes the number of
    get-instance calls issued before it. *)
Record Remote : Type := {
  Instances_Get : nat -> GetInstanceInput.t -> option Instance.t * option error;
  Instances_Create : CreateInstanceInput.t -> option Instance.t * option error;
  Images_List : ListImagesInput.t -> list Image.t * option error;
  Network_List : list Network.t * option error
}.

(** The collaborators of the reconciler: the remote handle, the equality
    comparer ([compare.IsEqual]) and the bootstrap script renderer
    ([script.BuildBootstrapScript]), both outside the sources at hand. *)
Record Env : Type := {
  Sdk : Remote;
  IsEqual : ResourceGroup.t -> ResourceGroup.t -> bool * option error;
  BuildBootstrapScript : list string -> Cluster.t -> string * option error
}.

Record World : Type := {
  fetches : nat;          (* get-instance calls issued so far *)
  trace : list Call;      (* remote calls and sleeps, oldest first *)
  cluster : Cluster.t     (* the object behind [immutable *cluster.Cluster] *)
}.

(** State and panic monad of the reconciler. *)
Definition M (A : Type) : Type := World -> Res A * World.

#[global] Instance M_ret : MRet M := fun A a w => (Done a, w).
#[global] Instance M_bind : MBind M := fun A B f m w =>
  match m w with
  | (Done a, w') => f a w'
  | (Panic reason, w') => (Panic reason, w')
  end.

Definition panic {A : Type} (reason : string) : M A :=
  fun w => (Panic reason, w).

(** [p.f] on a pointer [p]. *)
Definition deref {A : Type} (p : option A) : M A :=
  match p with
  | Some a => mret a
  | None => panic nil_dereference
  end.

(** [s[0]] on a slice [s]. *)
Definition index0 {A : Type} (s : list A) : M A :=
  match s with
  | a :: _ => mret a
  | [] => panic index_out_of_range
  end.

Definition log_call (c : Call) : M unit := fun w =>
  (Done tt, {| fetches := fetches w; trace := trace w ++ [c];
               cluster := cluster w |}).

Definition get_cluster : M Cluster.t := fun w => (Done (cluster w), w).

Definition modify_cluster (f : Cluster.t -> Cluster.t) : M unit := fun w =>
  (Done tt, {| fetches := fetches w; trace := trace w;
               cluster := f (cluster w) |}).

(** [Sdk.Compute.Instances().Get(ctx, input)] *)
Definition SdkInstancesGet (E : Env) (input : GetInstanceInput.t)
  : M (option Instance.t * option error) := fun w =>
  (Done (Instances_Get (Sdk E) (fetches w) input),
   {| fetches := S (fetches w);
      trace := trace w ++ [CallInstancesGet input];
      cluster := cluster w |}).

(** [Sdk.Compute.Instances().Create(ctx, input)] *)
Definition SdkInstancesCreate (E : Env) (input : CreateInstanceInput.t)
  : M (option Instance.t * option error) :=
  _ ← log_call (CallInstancesCreate input);
  mret (Instances_Create (Sdk E) input).

(** [Sdk.Compute.Images().List(ctx, input)] *)
Definition SdkImagesList (E : Env) (input : ListImagesInput.t)
  : M (list Image.t * option error) :=
  _ ← log_call (CallImagesList input);
  mret (Images_List (Sdk E) input).

(** [Sdk.Network.List(ctx, &network.ListInput{})] *)
Definition SdkNetworkList (E : Env) : M (list Network.t * option error) :=
  _ ← log_call CallNetworkList;
  mret (Network_List (Sdk E)).

(** [time.Sleep(time.Duration(seconds) * time.Second)] *)
Definition Sleep (seconds : Z) : M unit := log_call (CallSleep seconds).

(** ** [getMasterIP] *)

(** The [for] loop of [getMasterIP], by the number of attempts left
    ([MasterIPAttempts - i]). *)
Fixpoint getMasterIP_loop (E : Env) (identifier : string) (ret : list string)
    (attempts : nat) : M (list string * option error) :=
  match attempts with
  | O => mret (ret, None)
  | S attempts' =>
      '(instance, err) ← SdkInstancesGet E {| GetInstanceInput.ID := identifier |};
      match err with
      | Some e => mret (ret, Some e)
      | None =>
          inst ← deref instance;
          match Instance.IPs inst with
          | _ :: _ => mret (Instance.IPs inst, None)
          | [] =>
              _ ← Sleep MasterIPSleepSecondsPerAttempt;
              getMasterIP_loop E identifier ret attempts'
          end
      end
  end.

Definition getMasterIP (E : Env) (identifier : string)
  : M (list string * option error) :=
  (* ret := make([]string, 3, 3) *)
  let ret := replicate 3 "" in
  getMasterIP_loop E identifier ret MasterIPAttempts.

(** ** [ResourceGroup] methods *)

(** What the methods return: a cluster pointer, a [cloud.Resource] and an
    [error]. A returned cluster is the content of the shared object at the
    time of the return. *)
Definition Reconciled : Type :=
  (option Cluster.t * option ResourceGroup.t * option error)%type.

Definition mkResource (name : string) (tags : gmap string string)
    (identifier : string) (sp : option ServerPool.t) : ResourceGroup.t :=
  {| ResourceGroup.Shared_ :=
       {| Shared.Name := name; Shared.Tags := tags;
          Shared.Identifier := identifier |};
     ResourceGroup.BootstrapScripts := [];
     ResourceGroup.ServerPool_ := sp |}.

Definition Actual (E : Env) (r : ResourceGroup.t) : M Reconciled :=
  sp ← deref (ResourceGroup.ServerPool_ r);
  let newResource :=
    mkResource (ResourceGroup.Name r) {[ "Name" := ServerPool.Name sp ]}
               (ResourceGroup.Identifier r) None in
  if String.eqb (ResourceGroup.Identifier newResource) "" then
    immutable ← get_cluster;
    mret (Some immutable, Some newResource, None)
  else
    '(instance, err) ← SdkInstancesGet E
        {| GetInstanceInput.ID := ResourceGroup.Identifier newResource |};
    (* newResource.Name = instance.Name; newResource.Identifier = instance.ID *)
    inst ← deref instance;
    let newResource :=
      mkResource (Instance.Name inst) (ResourceGroup.Tags newResource)
                 (Instance.ID inst) None in
    match err with
    | Some e => mret (None, None, Some e)
    | None =>
        immutable ← get_cluster;
        mret (Some immutable, Some newResource, None)
    end.

Definition Expected (E : Env) (r : ResourceGroup.t) : M Reconciled :=
  sp ← deref (ResourceGroup.ServerPool_ r);
  let newResource :=
    mkResource (ResourceGroup.Name r) {[ "Name" := ServerPool.Name sp ]}
               (ResourceGroup.Identifier r) (ResourceGroup.ServerPool_ r) in
  immutable ← get_cluster;
  mret (Some immutable, Some newResource, None).

(** The [for _, found := range nets] loop of [Apply]. *)
Definition pick_networks (nets : list Network.t)
  : option Network.t * option Network.t :=
  fold_left
    (fun (acc : option Network.t * option Network.t) (found : Network.t) =>
       let net1 :=
         if String.eqb (Network.Name found) NetworkName
         then Some found else fst acc in
       let net2 :=
         if String.eqb (Network.Name found) FabricNetwork
         then Some found else snd acc in
       (net1, net2))
    nets (None, None).

(** [fmt.Sprintf("%s:%s", a, b)] on two strings. *)
Definition Sprintf_colon (a b : string) : string := a ++ ":" ++ b.

(** [immutable.ProviderConfig()], the port read through it,
    [immutable.ProviderConfig().KubernetesAPI.Endpoint = ip] and
    [immutable.SetProviderConfig(providerConfig)]. *)
Definition immutable_ProviderConfig : M ProviderConfig.t :=
  c ← get_cluster; mret (Cluster.Config c).

Definition immutable_Port : M string :=
  c ← get_cluster; mret (Cluster.Port c).

Definition write_Endpoint (ip : string) : M unit :=
  modify_cluster (fun c =>
    Cluster.SetProviderConfig
      (ProviderConfig.set_Endpoint ip (Cluster.Config c)) c).

Definition immutable_SetProviderConfig (pc : ProviderConfig.t) : M unit :=
  modify_cluster (Cluster.SetProviderConfig pc).

Definition Apply (E : Env) (r actual expected : ResourceGroup.t)
  : M Reconciled :=
  let expectedResource := expected in
  let actualResource := actual in
  let '(isEqual, err) := IsEqual E actualResource expectedResource in
  match err with
  | Some e => mret (None, None, Some e)
  | None =>
  if isEqual then
    immutable ← get_cluster;
    mret (Some immutable, Some expectedResource, None)
  else
    pool ← deref (ResourceGroup.ServerPool_ r);
    (* if we are a node, we need to get the kubernetes master IP *)
    early ←
      (if String.eqb (ServerPool.Type_ pool) ServerPoolTypeNode then
         '(masterIPs, err) ← getMasterIP E (ResourceGroup.Identifier r);
         match err with
         | Some e => mret (Some e)
         | None =>
             ip ← index0 masterIPs;
             _ ← write_Endpoint ip;
             providerConfig ← immutable_ProviderConfig;
             port ← immutable_Port;
             let providerConfig :=
               ProviderConfig.set_Item "INJECTEDMASTER"
                 (Sprintf_colon ip port) providerConfig in
             _ ← immutable_SetProviderConfig providerConfig;
             mret None
         end
       else mret None) : M (option error);
    match early with
    | Some e => mret (None, None, Some e)
    | None =>
    providerConfig ← immutable_ProviderConfig;
    port ← immutable_Port;
    let providerConfig :=
      ProviderConfig.set_Item "INJECTEDPORT" port providerConfig in
    _ ← immutable_SetProviderConfig providerConfig;
    immutable ← get_cluster;
    let '(boostrapScript, err) :=
      BuildBootstrapScript E (ServerPool.BootstrapScripts pool) immutable in
    match err with
    | Some e => mret (None, None, Some e)
    | None =>
    '(images, _) ← SdkImagesList E
        {| ListImagesInput.Name := ImageName;
           ListImagesInput.Version := ImageVersion |};
    let img := match images with i0 :: _ => i0 | [] => Image.zero end in
    '(nets, _) ← SdkNetworkList E;
    let '(net1, net2) := pick_networks nets in
    n1 ← deref net1;
    n2 ← deref net2;
    let createInput :=
      {| CreateInstanceInput.Name := ServerPool.Name pool;
         CreateInstanceInput.Package := PackageName;
         CreateInstanceInput.Image := Image.ID img;
         CreateInstanceInput.Networks := [Network.Id n1; Network.Id n2];
         CreateInstanceInput.Metadata := {[ "user-script" := boostrapScript ]};
         CreateInstanceInput.Tags := {[ "name" := ServerPool.Name pool ]};
         CreateInstanceInput.CNS_Services := [ServerPool.Name pool] |} in
    '(created, err) ← SdkInstancesCreate E createInput;
    match err with
    | Some e => mret (None, None, Some e)
    | None =>
    created ← deref created;
    (* if these are masters, we are not done until we have the master IP *)
    early ←
      (if String.eqb (ServerPool.Type_ pool) ServerPoolTypeMaster then
         '(masterIPs, err) ← getMasterIP E (Instance.ID created);
         match err with
         | Some e => mret (Some e)
         | None =>
             match masterIPs with
             | [] => mret (Some "Unable to find master IP addresses")
             | ip :: _ => _ ← write_Endpoint ip; mret None
             end
         end
       else mret None) : M (option error);
    match early with
    | Some e => mret (None, None, Some e)
    | None =>
    expectedPool ← deref (ResourceGroup.ServerPool_ expected);
    let newResource :=
      mkResource (ServerPool.Name pool) ∅ (Instance.ID created)
        (Some (ServerPool.set_Identifier (Instance.ID created) expectedPool)) in
    immutable ← get_cluster;
    mret (Some immutable, Some newResource, None)
    end end end end
  end.

Definition immutableRender (newResource : ResourceGroup.t) : M Cluster.t :=
  let resourceGroup := newResource in
  let providerConfig :=
    ProviderConfig.set_GroupIdentifier
      (ResourceGroup.Identifier resourceGroup) ProviderConfig.zero in
  _ ← modify_cluster (Cluster.set_Name (ResourceGroup.Name resourceGroup));
  _ ← immutable_SetProviderConfig providerConfig;
  get_cluster.

Definition Delete (E : Env) (r actual : ResourceGroup.t) : M Reconciled :=
  let deleteResource := actual in
  if String.eqb (ResourceGroup.Identifier deleteResource) "" then
    mret (None, None,
          Some ("Unable to delete VPC resource without ID ["
                  ++ ResourceGroup.Name deleteResource ++ "]"))
  else
    let newResource :=
      mkResource (ResourceGroup.Name r) (ResourceGroup.Tags r) "" None in
    newCluster ← immutableRender newResource;
    mret (Some newCluster, Some newResource, None).

(** *** The phases of [Apply]

    The body of [Apply] after the comparison, cut at its comments:
    the discovery of the master by a node, the provisioning of the
    instance, and the wait for the address of a master. [Apply] is the
    sequence of these phases (lemma [Apply_phases] below). *)

(** [// if we are a node, we need to get the kubernetes master IP] *)
Definition Apply_discover (E : Env) (r : ResourceGroup.t)
    (pool : ServerPool.t) : M (option error) :=
  if String.eqb (ServerPool.Type_ pool) ServerPoolTypeNode then
    '(masterIPs, err) ← getMasterIP E (ResourceGroup.Identifier r);
    match err with
    | Some e => mret (Some e)
    | None =>
        ip ← index0 masterIPs;
        _ ← write_Endpoint ip;
        providerConfig ← immutable_ProviderConfig;
        port ← immutable_Port;
        let providerConfig :=
          ProviderConfig.set_Item "INJECTEDMASTER"
            (Sprintf_colon ip port) providerConfig in
        _ ← immutable_SetProviderConfig providerConfig;
        mret None
    end
  else mret None.

(** [// if these are masters, we are not done until we have the master IP] *)
Definition Apply_await (E : Env) (pool : ServerPool.t)
    (created : Instance.t) : M (option error) :=
  if String.eqb (ServerPool.Type_ pool) ServerPoolTypeMaster then
    '(masterIPs, err) ← getMasterIP E (Instance.ID created);
    match err with
    | Some e => mret (Some e)
    | None =>
        match masterIPs with
        | [] => mret (Some "Unable to find master IP addresses")
        | ip :: _ => _ ← write_Endpoint ip; mret None
        end
    end
  else mret None.

(** From the injection of the port to the return of the new resource. *)
Definition Apply_provision (E : Env) (pool : ServerPool.t)
    (expected : ResourceGroup.t) : M Reconciled :=
  providerConfig ← immutable_ProviderConfig;
  port ← immutable_Port;
  let providerConfig :=
    ProviderConfig.set_Item "INJECTEDPORT" port providerConfig in
  _ ← immutable_SetProviderConfig providerConfig;
  immutable ← get_cluster;
  let '(boostrapScript, err) :=
    BuildBootstrapScript E (ServerPool.BootstrapScripts pool) immutable in
  match err with
  | Some e => mret (None, None, Some e)
  | None =>
  '(images, _) ← SdkImagesList E
      {| ListImagesInput.Name := ImageName;
         ListImagesInput.Version := ImageVersion |};
  let img := match images with i0 :: _ => i0 | [] => Image.zero end in
  '(nets, _) ← SdkNetworkList E;
  let '(net1, net2) := pick_networks nets in
  n1 ← deref net1;
  n2 ← deref net2;
  let createInput :=
    {| CreateInstanceInput.Name := ServerPool.Name pool;
       CreateInstanceInput.Package := PackageName;
       CreateInstanceInput.Image := Image.ID img;
       CreateInstanceInput.Networks := [Network.Id n1; Network.Id n2];
       CreateInstanceInput.Metadata := {[ "user-script" := boostrapScript ]};
       CreateInstanceInput.Tags := {[ "name" := ServerPool.Name pool ]};
       CreateInstanceInput.CNS_Services := [ServerPool.Name pool] |} in
  '(created, err) ← SdkInstancesCreate E createInput;
  match err with
  | Some e => mret (None, None, Some e)
  | None =>
  created ← deref created;
  early ← Apply_await E pool created;
  match early with
  | Some e => mret (None, None, Some e)
  | None =>
  expectedPool ← deref (ResourceGroup.ServerPool_ expected);
  let newResource :=
    mkResource (ServerPool.Name pool) ∅ (Instance.ID created)
      (Some (ServerPool.set_Identifier (Instance.ID created) expectedPool)) in
  immutable ← get_cluster;
  mret (Some immutable, Some newResource, None)
  end end end.

(** ** Package [tritonSDK]: [NewSdk] *)

Module tritonSDK.

(** A run of [NewSdk] either returns to its caller or ends the process
    in [log.Fatalf] (which prints the message and calls [os.Exit(1)]). *)
Inductive Exec (A : Type) : Type :=
| Return (a : A)
| Fatal (msg : string).
Arguments Return {A} a.
Arguments Fatal {A} msg.

#[global] Instance Exec_ret : MRet Exec := fun A a => Return a.
#[global] Instance Exec_bind : MBind Exec := fun A B f m =>
  match m with
  | Return a => f a
  | Fatal msg => Fatal msg
  end.

Record SSHAgentSignerInput : Type := {
  Agent_KeyID : string;
  Agent_AccountName : string
}.

Record PrivateKeySignerInput : Type := {
  Key_KeyID : string;
  Key_PrivateKeyMaterial : list Byte.byte;
  Key_AccountName : string;
  Key_Username : string
}.

Inductive Signer : Type :=
| SSHAgentSigner (input : SSHAgentSignerInput)
| PrivateKeySigner (input : PrivateKeySignerInput).

(** [pem.Block], the field the code reads. *)
Record Block : Type := { Headers : gmap string string }.

Record ClientConfig : Type := {
  TritonURL : string;
  AccountName : string;
  Username : string;
  Signers : list (option Signer)
}.

Record ComputeClient : Type := { compute_config : ClientConfig }.
Record NetworkClient : Type := { network_config : ClientConfig }.

Record Sdk : Type := {
  Compute : option ComputeClient;
  Network : option NetworkClient
}.

(** What [NewSdk] asks of its surroundings: the process environment, the
    file system, and the library constructors it calls. *)
Record Host : Type := {
  Getenv : string -> string;
  Stat : string -> option error;
  ReadFile : string -> list Byte.byte * option error;
  pem_Decode : list Byte.byte -> option Block;
  NewSSHAgentSigner : SSHAgentSignerInput -> option Signer * option error;
  NewPrivateKeySigner : PrivateKeySignerInput -> option Signer * option error;
  compute_NewClient : ClientConfig -> option ComputeClient * option error;
  network_NewClient : ClientConfig -> option NetworkClient * option error
}.

Definition keyID : string := "f7:75:b3:53:fe:d5:5d:26:13:2a:7f:9b:6b:2e:94:94".
Definition accountName : string := "niravpatel27".
Definition newline : string := String (Ascii.ascii_of_nat 10) "".

(** The signer of the [keyMaterial == ""] branch. *)
Definition agentSigner (H : Host) : Exec (option Signer) :=
  let input :=
    {| Agent_KeyID := keyID; Agent_AccountName := accountName |} in
  let '(signer, err) := NewSSHAgentSigner H input in
  match err with
  | Some e => Fatal ("Error Creating SSH Agent Signer: " ++ e)
  | None => Return signer
  end.

(** The key bytes of the [else] branch: the content of the file named by
    [keyMaterial] when [os.Stat] finds it, else [keyMaterial] itself. *)
Definition readKeyBytes (H : Host) (keyMaterial : string)
  : Exec (list Byte.byte) :=
  match Stat H keyMaterial with
  | None =>
      let '(keyBytes, err) := ReadFile H keyMaterial in
      match err with
      | Some e =>
          Fatal ("Error reading key material from " ++ keyMaterial
                   ++ ": " ++ e)
      | None =>
          match pem_Decode H keyBytes with
          | None =>
              Fatal ("Failed to read key material '" ++ keyMaterial
                       ++ "': no key found")
          | Some block =>
              if String.eqb (default "" (Headers block !! "Proc-Type"))
                            "4,ENCRYPTED"
              then
                Fatal ("Failed to read key '" ++ keyMaterial
                         ++ "': password protected keys are" ++ newline
                         ++ "not currently supported. Please decrypt the key prior to use.")
              else Return keyBytes
          end
      end
  | Some _ => Return (list_byte_of_string keyMaterial)
  end.

Definition keySigner (H : Host) (keyMaterial userName : string)
  : Exec (option Signer) :=
  keyBytes ← readKeyBytes H keyMaterial;
  let input :=
    {| Key_KeyID := keyID; Key_PrivateKeyMaterial := keyBytes;
       Key_AccountName := accountName; Key_Username := userName |} in
  let '(signer, err) := NewPrivateKeySigner H input in
  match err with
  | Some e => Fatal ("Error Creating SSH Private Key Signer: " ++ e)
  | None => Return signer
  end.

(** The [if keyMaterial == "" { ... } else { ... }] statement, which
    leaves the signer in [signer]. *)
Definition newSigner (H : Host) (keyMaterial userName : string)
  : Exec (option Signer) :=
  if String.eqb keyMaterial "" then agentSigner H
  else keySigner H keyMaterial userName.

(** [config := &triton.ClientConfig{...}] *)
Definition clientConfig (userName : string) (signer : option Signer)
  : ClientConfig :=
  {| TritonURL := "https://us-east-1.api.joyent.com";
     AccountName := accountName;
     Username := userName;
     Signers := [signer] |}.

Definition NewSdk (H : Host) : Exec (option Sdk * option error) :=
  if String.eqb keyID "" then
    Return (None, Some "Empty $TRITON_KEY_ID")
  else if String.eqb keyID "" then
    Return (None, Some "Empty $TRITON_KEY_ID")
  else
    let keyMaterial := Getenv H "TRITON_KEY_MATERIAL" in
    let userName := Getenv H "TRITON_USER" in
    signer ← newSigner H keyMaterial userName;
    let config := clientConfig userName signer in
    let '(computeClient, err) := compute_NewClient H config in
    match err with
    | Some e => Fatal ("Compute NewClient(): " ++ e)
    | None =>
        let '(networkClient, err) := network_NewClient H config in
        match err with
        | Some e => Fatal ("Network NewClient(): " ++ e)
        | None =>
            let sdk :=
              {| Compute := computeClient; Network := networkClient |} in
            Return (Some sdk, None)
        end
    end.

End tritonSDK.

(** ** Vocabulary of the statements *)

(** The answer to the [j]-th fetch (from 0) of a poll on [identifier] that
    starts in world [w]. *)
Definition fetch (E : Env) (w : World) (identifier : string) (j : nat)
  : option Instance.t * option error :=
  Instances_Get (Sdk E) (fetches w + j) {| GetInstanceInput.ID := identifier |}.

(** A fetch that succeeds and reports no address yet. *)
Definition pending (g : option Instance.t * option error) : Prop :=
  match g with
  | (Some inst, None) => Instance.IPs inst = []
  | _ => False
  end.

(** A fetch that succeeds and reports the addresses [ips], at least one. *)
Definition found (ips : list string) (g : option Instance.t * option error)
  : Prop :=
  match g with
  | (Some inst, None) => Instance.IPs inst = ips ∧ ips ≠ []
  | _ => False
  end.

(** A fetch that fails with the error [e]. *)
Definition failed (e : error) (g : option Instance.t * option error) : Prop :=
  snd g = Some e.

(** What a poll returns on an answer that ends it. *)
Definition stop (ret : list string) (g : option Instance.t * option error)
  : Res (list string * option error) :=
  match g with
  | (_, Some e) => Done (ret, Some e)
  | (None, None) => Panic nil_dereference
  | (Some inst, None) => Done (Instance.IPs inst, None)
  end.

(** The calls of [k] rounds of fetch and sleep. *)
Fixpoint rounds_trace (identifier : string) (k : nat) : list Call :=
  match k with
  | O => []
  | S k' =>
      CallInstancesGet {| GetInstanceInput.ID := identifier |}
        :: CallSleep MasterIPSleepSecondsPerAttempt
        :: rounds_trace identifier k'
  end.

(** The world after [k] rounds of fetch and sleep. *)
Definition rounds (w : World) (identifier : string) (k : nat) : World :=
  {| fetches := fetches w + k;
     trace := trace w ++ rounds_trace identifier k;
     cluster := cluster w |}.

(** The world after [k] such rounds and one more fetch, not followed by a
    sleep. *)
Definition last_fetch (w : World) (identifier : string) (k : nat) : World :=
  {| fetches := fetches w + S k;
     trace := trace w ++ rounds_trace identifier k
                ++ [CallInstancesGet {| GetInstanceInput.ID := identifier |}];
     cluster := cluster w |}.

(** The calls of a trace that create an instance. *)
Definition creates (t : list Call) : list CreateInstanceInput.t :=
  omap (fun c => match c with CallInstancesCreate i => Some i | _ => None end) t.

(** The outcome of running [m] in [w], and the world it leaves. *)
Definition outcome {A : Type} (m : M A) (w : World) : Res A := fst (m w).
Definition after {A : Type} (m : M A) (w : World) : World := snd (m w).

(** A cluster that [m] returns is the shared object as [m] leaves it. *)
Definition returns_store (m : M Reconciled) : Prop :=
  ∀ w c res err,
    outcome m w = Done (Some c, res, err) → c = cluster (after m w).

(** The number of fetches a poll on [identifier] issues from world [w]. *)
Definition performed (E : Env) (identifier : string) (w : World) : nat :=
  fetches (after (getMasterIP E identifier) w) - fetches w.

(** The seconds a trace spends in [time.Sleep]. *)
Definition slept (t : list Call) : Z :=
  fold_right
    (fun c acc => match c with CallSleep s => (s + acc)%Z | _ => acc end)
    0%Z t.

(** A call that a poll on [identifier] may issue: a get-instance call on
    that identifier or a sleep of the fixed interval. *)
Definition poll_call (identifier : string) (c : Call) : Prop :=
  c = CallInstancesGet {| GetInstanceInput.ID := identifier |}
  ∨ c = CallSleep MasterIPSleepSecondsPerAttempt.

(** The create input that [Apply] builds for the pool of its receiver. *)
Definition createInput_of (pool : ServerPool.t) (images : list Image.t)
    (n1 n2 : Network.t) (script : string) : CreateInstanceInput.t :=
  {| CreateInstanceInput.Name := ServerPool.Name pool;
     CreateInstanceInput.Package := PackageName;
     CreateInstanceInput.Image :=
       Image.ID match images with i0 :: _ => i0 | [] => Image.zero end;
     CreateInstanceInput.Networks := [Network.Id n1; Network.Id n2];
     CreateInstanceInput.Metadata := {[ "user-script" := script ]};
     CreateInstanceInput.Tags := {[ "name" := ServerPool.Name pool ]};
     CreateInstanceInput.CNS_Services := [ServerPool.Name pool] |}.

(** The image listing that [Apply] asks for. *)
Definition imageQuery : ListImagesInput.t :=
  {| ListImagesInput.Name := ImageName;
     ListImagesInput.Version := ImageVersion |}.

(** The cluster after the writes of a node that found the master at
    [ip]: the endpoint and the key [INJECTEDMASTER]. *)
Definition with_master (ip : string) (c : Cluster.t) : Cluster.t :=
  Cluster.SetProviderConfig
    (ProviderConfig.set_Item "INJECTEDMASTER"
       (Sprintf_colon ip (Cluster.Port c))
       (ProviderConfig.set_Endpoint ip (Cluster.Config c)))
    c.

(** The cluster after the write of the key [INJECTEDPORT]. *)
Definition with_port (c : Cluster.t) : Cluster.t :=
  Cluster.SetProviderConfig
    (ProviderConfig.set_Item "INJECTEDPORT" (Cluster.Port c)
       (Cluster.Config c))
    c.

(** The cluster after the write of the endpoint alone. *)
Definition with_endpoint (ip : string) (c : Cluster.t) : Cluster.t :=
  Cluster.SetProviderConfig
    (ProviderConfig.set_Endpoint ip (Cluster.Config c)) c.

(** The world [w] with the cluster [c] and the calls [calls] added to its
    trace. *)
Definition extend (w : World) (calls : list Call) (c : Cluster.t) : World :=
  {| fetches := fetches w; trace := trace w ++ calls; cluster := c |}.

(** The three remote calls of a provisioning, in the order of the code. *)
Definition provision_calls (input : CreateInstanceInput.t) : list Call :=
  [CallImagesList imageQuery; CallNetworkList; CallInstancesCreate input].

(** ** Scenarios

    Concrete collaborators and resources on which the statements below
    are exercised. *)

Module Scenario.

Definition cluster0 : Cluster.t :=
  {| Cluster.Name := "demo";
     Cluster.Config :=
       {| ProviderConfig.GroupIdentifier := "";
          ProviderConfig.API :=
            {| KubernetesAPI.Endpoint := ""; KubernetesAPI.Port := "443" |};
          ProviderConfig.ItemMap := ∅ |} |}.

Definition world0 : World :=
  {| fetches := 0; trace := []; cluster := cluster0 |}.

Definition both_networks : list Network.t :=
  [ {| Network.Id := "net-public"; Network.Name := NetworkName |};
    {| Network.Id := "net-fabric"; Network.Name := FabricNetwork |} ].

Definition other_networks : list Network.t :=
  [ {| Network.Id := "net-private"; Network.Name := "Joyent-SDC-Private" |} ].

(** The instance of the scenario, with the addresses it reports. *)
Definition machine (ips : list string) : Instance.t :=
  {| Instance.ID := "i-123"; Instance.Name := "demo-master";
     Instance.IPs := ips |}.

(** The instance never gets an address. *)
Definition never_ready (j : nat) : option Instance.t * option error :=
  (Some (machine []), None).

(** The instance has its address from the third fetch on. *)
Definition ready_at_third (j : nat) : option Instance.t * option error :=
  if Nat.ltb j 2 then (Some (machine []), None)
  else (Some (machine ["10.0.0.5"]), None).

(** The second fetch fails. *)
Definition fails_at_second (j : nat) : option Instance.t * option error :=
  if Nat.eqb j 1 then (None, Some "unable to get machine")
  else (Some (machine []), None).

(** Every fetch fails, the way the client reports a failure: no instance
    and an error. *)
Definition unreachable (j : nat) : option Instance.t * option error :=
  (None, Some "unable to get machine").

Definition remote (get : nat -> option Instance.t * option error)
    (nets : list Network.t) : Remote :=
  {| Instances_Get := fun j _ => get j;
     Instances_Create := fun input =>
       (Some {| Instance.ID := "i-123";
                Instance.Name := CreateInstanceInput.Name input;
                Instance.IPs := [] |}, None);
     Images_List := fun input =>
       ([ {| Image.ID := "img-1"; Image.Name := ListImagesInput.Name input;
             Image.Version := ListImagesInput.Version input |} ], None);
     Network_List := (nets, None) |}.

(** A comparer that tells two resources apart by name, identifier and
    presence of a server pool. *)
Definition same (a b : ResourceGroup.t) : bool :=
  String.eqb (ResourceGroup.Name a) (ResourceGroup.Name b)
  && String.eqb (ResourceGroup.Identifier a) (ResourceGroup.Identifier b)
  && bool_decide (is_Some (ResourceGroup.ServerPool_ a)
                  ↔ is_Some (ResourceGroup.ServerPool_ b)).

Definition env (get : nat -> option Instance.t * option error)
    (nets : list Network.t) : Env :=
  {| Sdk := remote get nets;
     IsEqual := fun a b => (same a b, None);
     BuildBootstrapScript := fun scripts _ => (String.concat ";" scripts, None) |}.

Definition pool (type : string) : ServerPool.t :=
  {| ServerPool.Name := "demo-" ++ type; ServerPool.Type_ := type;
     ServerPool.Identifier := "";
     ServerPool.BootstrapScripts := ["bootstrap/triton_k8s_ubuntu_16.04.sh"] |}.

(** The receiver [r] of the methods, for a pool of the given role and a
    given identifier; what [Actual] and [Expected] make of it when no
    remote call is needed. *)
Definition receiver (type identifier : string) : ResourceGroup.t :=
  mkResource ("demo-" ++ type) ∅ identifier (Some (pool type)).

Definition actual_of (type identifier : string) : ResourceGroup.t :=
  mkResource ("demo-" ++ type) {[ "Name" := "demo-" ++ type ]} identifier None.

Definition expected_of (type identifier : string) : ResourceGroup.t :=
  mkResource ("demo-" ++ type) {[ "Name" := "demo-" ++ type ]} identifier
             (Some (pool type)).

(** A host without [TRITON_KEY_MATERIAL], whose ssh agent holds the
    key, and a host whose agent cannot be reached. *)
Definition agent_host (agent_error : option error) : tritonSDK.Host :=
  {| tritonSDK.Getenv := fun _ => "";
     tritonSDK.Stat := fun _ => Some "no such file or directory";
     tritonSDK.ReadFile := fun _ => ([], Some "no such file or directory");
     tritonSDK.pem_Decode := fun _ => None;
     tritonSDK.NewSSHAgentSigner := fun input =>
       match agent_error with
       | None => (Some (tritonSDK.SSHAgentSigner input), None)
       | Some e => (None, Some e)
       end;
     tritonSDK.NewPrivateKeySigner := fun input =>
       (Some (tritonSDK.PrivateKeySigner input), None);
     tritonSDK.compute_NewClient := fun config =>
       (Some {| tritonSDK.compute_config := config |}, None);
     tritonSDK.network_NewClient := fun config =>
       (Some {| tritonSDK.network_config := config |}, None) |}.

(** Collaborators whose script renderer or create call may fail with the
    given error; the instance that is created reports its address at the
    third fetch. *)
Definition faulty_env (script_error create_error : option error) : Env :=
  {| Sdk :=
       {| Instances_Get := fun j _ => ready_at_third j;
          Instances_Create := fun input =>
            match create_error with
            | Some e => (None, Some e)
            | None => (Some (machine []), None)
            end;
          Images_List := fun _ => ([], Some "unable to list images");
          Network_List := (both_networks, None) |};
     IsEqual := fun a b => (same a b, None);
     BuildBootstrapScript := fun scripts _ =>
       (String.concat ";" scripts, script_error) |}.

(** Every fetch answers with an instance and an error at once. *)
Definition times_out (j : nat) : option Instance.t * option error :=
  (Some (machine []), Some "request timed out").

(** A host with [TRITON_KEY_MATERIAL] set to [keyMaterial] and
    [TRITON_USER] to ["ops"]; [file] is the content of the file of that
    name when there is one, and [block] what [pem.Decode] finds in it. *)
Definition key_host (keyMaterial : string) (file : option (list Byte.byte))
    (block : option tritonSDK.Block) : tritonSDK.Host :=
  {| tritonSDK.Getenv := fun name =>
       if String.eqb name "TRITON_KEY_MATERIAL" then keyMaterial
       else if String.eqb name "TRITON_USER" then "ops" else "";
     tritonSDK.Stat := fun _ =>
       match file with
       | Some _ => None
       | None => Some "no such file or directory"
       end;
     tritonSDK.ReadFile := fun _ =>
       match file with
       | Some content => (content, None)
       | None => ([], Some "no such file or directory")
       end;
     tritonSDK.pem_Decode := fun _ => block;
     tritonSDK.NewSSHAgentSigner := fun input =>
       (None, Some "unable to connect to the ssh agent");
     tritonSDK.NewPrivateKeySigner := fun input =>
       (Some (tritonSDK.PrivateKeySigner input), None);
     tritonSDK.compute_NewClient := fun config =>
       (Some {| tritonSDK.compute_config := config |}, None);
     tritonSDK.network_NewClient := fun config =>
       (Some {| tritonSDK.network_config := config |}, None) |}.

End Scenario.

(** ** The poller *)

Ltac run :=
  unfold SdkInstancesCreate, SdkImagesList, SdkNetworkList, Sleep,
    immutable_ProviderConfig, immutable_Port, write_Endpoint,
    immutable_SetProviderConfig, deref, index0, panic, log_call,
    get_cluster, modify_cluster;
  unfold mbind, M_bind, mret, M_ret; simpl.

Lemma rounds_0 w identifier : rounds w identifier 0 = w.
Proof.
  destruct w; unfold rounds; simpl. by rewrite Nat.add_0_r, app_nil_r.
Qed.

Lemma fetch_rounds E w identifier k j :
  fetch E (rounds w identifier k) identifier j = fetch E w identifier (k + j).
Proof. unfold fetch; simpl. by rewrite Nat.add_assoc. Qed.

Lemma rounds_rounds w identifier k k' :
  rounds (rounds w identifier k) identifier k' = rounds w identifier (k + k').
Proof.
  unfold rounds; simpl. f_equal; [lia|].
  rewrite <- app_assoc. f_equal.
  induction k as [|k IH]; simpl; [done|]. by rewrite IH.
Qed.

Lemma last_fetch_rounds w identifier k k' :
  last_fetch (rounds w identifier k) identifier k'
  = last_fetch w identifier (k + k').
Proof.
  unfold last_fetch, rounds; simpl. f_equal; [lia|].
  rewrite <- app_assoc. f_equal.
  induction k as [|k IH]; simpl; [done|]. by rewrite IH.
Qed.

(** One turn of the loop on an answer that ends the poll. *)
Lemma getMasterIP_loop_stop E identifier ret n w :
  ¬ pending (fetch E w identifier 0) →
  getMasterIP_loop E identifier ret (S n) w
  = (stop ret (fetch E w identifier 0), last_fetch w identifier 0).
Proof.
  intros Hnp. unfold fetch in *. rewrite Nat.add_0_r in *.
  simpl. run. unfold SdkInstancesGet, last_fetch. simpl.
  rewrite Nat.add_1_r.
  destruct (Instances_Get _ _ _) as [[inst|] [e|]]; simpl in *; try done.
  by destruct (Instance.IPs inst).
Qed.

(** One turn of the loop on an answer without address: sleep, go on. *)
Lemma getMasterIP_loop_pending E identifier ret n w :
  pending (fetch E w identifier 0) →
  getMasterIP_loop E identifier ret (S n) w
  = getMasterIP_loop E identifier ret n (rounds w identifier 1).
Proof.
  intros Hp. unfold fetch in *. rewrite Nat.add_0_r in *.
  simpl. run. unfold SdkInstancesGet. simpl.
  destruct (Instances_Get _ _ _) as [[inst|] [e|]]; simpl in *; try done.
  rewrite Hp. unfold rounds. simpl.
  rewrite Nat.add_1_r, <- app_assoc. done.
Qed.

Lemma getMasterIP_loop_rounds E identifier ret k : ∀ n w,
  (∀ j, j < k → pending (fetch E w identifier j)) →
  getMasterIP_loop E identifier ret (k + n) w
  = getMasterIP_loop E identifier ret n (rounds w identifier k).
Proof.
  induction k as [|k IH]; intros n w Hp.
  - by rewrite rounds_0.
  - change (S k + n) with (S (k + n)).
    rewrite getMasterIP_loop_pending by (apply Hp; lia).
    rewrite IH.
    + by rewrite rounds_rounds.
    + intros j Hj. rewrite fetch_rounds. apply Hp. lia.
Qed.

(** Every run of the loop: either all [n] attempts found no address, or
    the attempt [k] was the first to end the poll. *)
Lemma getMasterIP_loop_spec E identifier ret : ∀ n w,
  ((∀ j, j < n → pending (fetch E w identifier j)) ∧
   getMasterIP_loop E identifier ret n w
   = (Done (ret, None), rounds w identifier n))
  ∨ (∃ k, k < n ∧ (∀ j, j < k → pending (fetch E w identifier j)) ∧
      ¬ pending (fetch E w identifier k) ∧
      getMasterIP_loop E identifier ret n w
      = (stop ret (fetch E w identifier k), last_fetch w identifier k)).
Proof.
  induction n as [|n IH]; intros w.
  - left. split; [intros; lia|]. by rewrite rounds_0.
  - assert (Hdec : pending (fetch E w identifier 0)
                   ∨ ¬ pending (fetch E w identifier 0)).
    { destruct (fetch E w identifier 0) as [[inst|] [e|]]; simpl; auto.
      destruct (Instance.IPs inst); auto. }
    destruct Hdec as [Hp|Hnp].
    + rewrite getMasterIP_loop_pending by done.
      destruct (IH (rounds w identifier 1)) as [[Hall Heq]|(k & Hk & Hpre & Hnp & Heq)].
      * left. split.
        -- intros [|j] Hj; [done|].
           specialize (Hall j). rewrite fetch_rounds in Hall. apply Hall. lia.
        -- by rewrite Heq, rounds_rounds.
      * right. exists (S k). rewrite fetch_rounds in Hnp, Heq.
        rewrite last_fetch_rounds in Heq.
        split; [lia|]. split; [|done].
        intros [|j] Hj; [done|].
        specialize (Hpre j). rewrite fetch_rounds in Hpre. apply Hpre. lia.
    + right. exists 0. split; [lia|]. split; [intros; lia|]. split; [done|].
      by apply getMasterIP_loop_stop.
Qed.

Lemma getMasterIP_exhausted E identifier w :
  (∀ j, j < MasterIPAttempts → pending (fetch E w identifier j)) →
  getMasterIP E identifier w
  = (Done (replicate 3 "", None), rounds w identifier MasterIPAttempts).
Proof.
  intros Hp. unfold getMasterIP.
  destruct (getMasterIP_loop_spec E identifier (replicate 3 "")
              MasterIPAttempts w) as [[_ Heq]|(k & Hk & _ & Hnp & _)]; [done|].
  destruct Hnp. by apply Hp.
Qed.

Lemma getMasterIP_stops E identifier w k :
  k < MasterIPAttempts →
  (∀ j, j < k → pending (fetch E w identifier j)) →
  ¬ pending (fetch E w identifier k) →
  getMasterIP E identifier w
  = (stop (replicate 3 "") (fetch E w identifier k), last_fetch w identifier k).
Proof.
  intros Hk Hpre Hnp. unfold getMasterIP.
  replace MasterIPAttempts with (k + S (MasterIPAttempts - S k)) by lia.
  rewrite getMasterIP_loop_rounds by done.
  rewrite getMasterIP_loop_stop.
  - rewrite fetch_rounds, last_fetch_rounds. by rewrite !Nat.add_0_r.
  - rewrite fetch_rounds. by rewrite Nat.add_0_r.
Qed.

Lemma getMasterIP_found E identifier w k ips :
  k < MasterIPAttempts →
  (∀ j, j < k → pending (fetch E w identifier j)) →
  found ips (fetch E w identifier k) →
  getMasterIP E identifier w = (Done (ips, None), last_fetch w identifier k).
Proof.
  intros Hk Hpre Hf. rewrite (getMasterIP_stops E identifier w k); try done.
  - destruct (fetch E w identifier k) as [[inst|] [e|]]; simpl in *; try done.
    by destruct Hf as [-> _].
  - destruct (fetch E w identifier k) as [[inst|] [e|]]; simpl in *; try done.
    intros Hnil. destruct Hf as [<- Hne]. done.
Qed.

(** A poll leaves the cluster object alone. *)
Lemma getMasterIP_cluster E identifier w :
  cluster (after (getMasterIP E identifier) w) = cluster w.
Proof.
  unfold after, getMasterIP.
  destruct (getMasterIP_loop_spec E identifier (replicate 3 "")
              MasterIPAttempts w) as [[_ ->]|(k & _ & _ & _ & ->)]; done.
Qed.

(** A poll that returns without error returns at least one string. *)
Lemma getMasterIP_nonempty E identifier w ips :
  outcome (getMasterIP E identifier) w = Done (ips, None) → ips ≠ [].
Proof.
  unfold outcome, getMasterIP.
  destruct (getMasterIP_loop_spec E identifier (replicate 3 "")
              MasterIPAttempts w) as [[_ ->]|(k & _ & _ & Hnp & ->)]; simpl.
  - by intros [= <-].
  - destruct (fetch E w identifier k) as [[inst|] [e|]]; simpl in *; try done.
    intros [= <-]. done.
Qed.

(** The two ways a poll can go, with the number of fetches it issues. *)
Lemma getMasterIP_cases E identifier w :
  ((∀ j, j < MasterIPAttempts → pending (fetch E w identifier j)) ∧
   getMasterIP E identifier w
   = (Done (replicate 3 "", None), rounds w identifier MasterIPAttempts) ∧
   performed E identifier w = MasterIPAttempts)
  ∨ (∃ k, k < MasterIPAttempts ∧
      (∀ j, j < k → pending (fetch E w identifier j)) ∧
      ¬ pending (fetch E w identifier k) ∧
      getMasterIP E identifier w
      = (stop (replicate 3 "") (fetch E w identifier k),
         last_fetch w identifier k) ∧
      performed E identifier w = S k).
Proof.
  unfold performed, after, getMasterIP.
  destruct (getMasterIP_loop_spec E identifier (replicate 3 "")
              MasterIPAttempts w) as [[Hall Heq]|(k & Hk & Hpre & Hnp & Heq)].
  - left. rewrite Heq. simpl. repeat split; [done|lia].
  - right. exists k. rewrite Heq. simpl. repeat split; [done..|lia].
Qed.

Lemma pending_not_failed g e : pending g → ¬ failed e g.
Proof. by destruct g as [[inst|] [e'|]]. Qed.

Lemma pending_not_found g ips : pending g → ¬ found ips g.
Proof.
  destruct g as [[inst|] [e'|]]; simpl; try done.
  intros -> [<- Hne]. done.
Qed.

(** C6. The poller stops at the first fetch that fails and returns its
    error: when fetch [j] was issued and failed with [e], the poll returns
    the error [e] right after that fetch, so that exactly [j + 1] fetches
    were issued and none follows the failure. A fetch that was issued and
    succeeded without address is followed by another fetch as long as the
    ceiling [MasterIPAttempts] allows, and never more than
    [MasterIPAttempts] fetches are issued. *)
Theorem getMasterIP_retries_only_no_address E identifier w :
  (∀ j e, j < performed E identifier w →
          failed e (fetch E w identifier j) →
          getMasterIP E identifier w
          = (Done (replicate 3 "", Some e), last_fetch w identifier j)
          ∧ performed E identifier w = S j)
  ∧ (∀ j, j < performed E identifier w →
          pending (fetch E w identifier j) →
          S j < MasterIPAttempts →
          S j < performed E identifier w)
  ∧ (performed E identifier w ≤ MasterIPAttempts)%nat.
Proof.
  destruct (getMasterIP_cases E identifier w)
    as [(Hall & Heq & Hn)|(k & Hk & Hpre & Hnp & Heq & Hn)]; rewrite Hn.
  - split; [|split; [intros; lia | lia]].
    intros j e Hj Hf. destruct (pending_not_failed _ e (Hall j Hj) Hf).
  - split; [|split; [|lia]].
    + intros j e Hj Hf.
      assert (j = k) as ->.
      { destruct (decide (j < k)) as [Hlt|Hge]; [|lia].
        destruct (pending_not_failed _ e (Hpre j Hlt) Hf). }
      rewrite Heq. split; [|done].
      unfold failed in Hf.
      destruct (fetch E w identifier k) as [[inst|] err]; simpl in *; by subst.
    + intros j Hj Hp _.
      destruct (decide (j = k)) as [->|Hne]; [done|lia].
Qed.

(** C7. The poller issues at most [MasterIPAttempts] (100) fetches, and
    when a fetch that was issued reports one or more addresses the poll
    returns that list with a nil error right after it, without a further
    fetch or sleep. With the fetch results [[]], [[]], [["10.0.0.5"]] it
    returns [["10.0.0.5"]] and nil after exactly 3 fetches. *)
Theorem getMasterIP_returns_on_first_address E identifier w :
  (performed E identifier w ≤ MasterIPAttempts)%nat
  ∧ (∀ j ips, j < performed E identifier w →
              found ips (fetch E w identifier j) →
              getMasterIP E identifier w
              = (Done (ips, None), last_fetch w identifier j)
              ∧ performed E identifier w = S j)
  ∧ (let E3 := Scenario.env Scenario.ready_at_third Scenario.both_networks in
     outcome (getMasterIP E3 "i-123") Scenario.world0
     = Done (["10.0.0.5"], None)
     ∧ performed E3 "i-123" Scenario.world0 = 3).
Proof.
  split; [|split].
  - destruct (getMasterIP_cases E identifier w)
      as [(_ & _ & ->)|(k & Hk & _ & _ & _ & ->)]; lia.
  - destruct (getMasterIP_cases E identifier w)
      as [(Hall & Heq & Hn)|(k & Hk & Hpre & Hnp & Heq & Hn)]; rewrite Hn.
    + intros j ips Hj Hf. destruct (pending_not_found _ ips (Hall j Hj) Hf).
    + intros j ips Hj Hf.
      assert (j = k) as ->.
      { destruct (decide (j < k)) as [Hlt|Hge]; [|lia].
        destruct (pending_not_found _ ips (Hpre j Hlt) Hf). }
      rewrite Heq. split; [|done].
      destruct (fetch E w identifier k) as [[inst|] [e|]]; simpl in *; try done.
      by destruct Hf as [-> _].
  - split; reflexivity.
Qed.

(** The poll of C6 on a remote whose second fetch fails: the error comes
    back after exactly two fetches. *)
Lemma getMasterIP_retries_only_no_address_witness :
  let E := Scenario.env Scenario.fails_at_second Scenario.both_networks in
  getMasterIP E "i-123" Scenario.world0
  = (Done (replicate 3 "", Some "unable to get machine"),
     last_fetch Scenario.world0 "i-123" 1)
  ∧ performed E "i-123" Scenario.world0 = 2.
Proof.
  apply (proj1 (getMasterIP_retries_only_no_address
                  (Scenario.env Scenario.fails_at_second Scenario.both_networks)
                  "i-123" Scenario.world0) 1 "unable to get machine").
  - vm_compute. lia.
  - reflexivity.
Defined.

(** The poll of C7 on a remote that reports the address at the third
    fetch. *)
Lemma getMasterIP_returns_on_first_address_witness :
  let E := Scenario.env Scenario.ready_at_third Scenario.both_networks in
  getMasterIP E "i-123" Scenario.world0
  = (Done (["10.0.0.5"], None), last_fetch Scenario.world0 "i-123" 2)
  ∧ performed E "i-123" Scenario.world0 = 3.
Proof.
  apply (proj1 (proj2 (getMasterIP_returns_on_first_address
                  (Scenario.env Scenario.ready_at_third Scenario.both_networks)
                  "i-123" Scenario.world0)) 2 ["10.0.0.5"]).
  - vm_compute. lia.
  - split; [reflexivity | discriminate].
Defined.

(** C2 (defect of the code). When all [MasterIPAttempts] fetches succeed
    without address, the poller returns a nil error, but the sequence it
    returns is not empty: it is the slice of [make([]string, 3, 3)], three
    empty strings. Here on a remote whose instance never gets an address. *)
Theorem getMasterIP_exhausted_returns_three_blanks :
  let E := Scenario.env Scenario.never_ready Scenario.both_networks in
  Forall (fun j => pending (fetch E Scenario.world0 "i-123" j))
         (seq 0 MasterIPAttempts)
  ∧ outcome (getMasterIP E "i-123") Scenario.world0 = Done ([""; ""; ""], None)
  ∧ performed E "i-123" Scenario.world0 = MasterIPAttempts.
Proof.
  split; [|split].
  - apply Forall_forall. intros j _. reflexivity.
  - vm_compute. reflexivity.
  - vm_compute. reflexivity.
Qed.

(** The same for every remote: an exhausted poll returns three empty
    strings and no error, after [MasterIPAttempts] rounds of fetch and
    sleep. *)
Lemma getMasterIP_exhausted_length E identifier w :
  (∀ j, j < MasterIPAttempts → pending (fetch E w identifier j)) →
  ∃ ips, outcome (getMasterIP E identifier) w = Done (ips, None)
         ∧ length ips = 3.
Proof.
  intros Hp. exists (replicate 3 "").
  unfold outcome. by rewrite getMasterIP_exhausted.
Qed.

(** ** [Apply] *)

(** Records that the cluster object is unchanged by a poll that ran
    inside a larger run. *)
Ltac poll_frame :=
  repeat
    match goal with
    | H : getMasterIP ?E ?id ?w = (_, ?w2) |- _ =>
        lazymatch goal with
        | _ : cluster w2 = _ |- _ => fail
        | _ =>
            let Hc := fresh "Hc" in
            pose proof (getMasterIP_cluster E id w) as Hc;
            unfold after in Hc; rewrite H in Hc; simpl in Hc
        end
    end.

Ltac read_cluster :=
  unfold Cluster.Endpoint, Cluster.Item, Cluster.Port, Sprintf_colon in *;
  simpl in *.

(** C5. When the comparer judges [actual] and [expected] equal, [Apply]
    does nothing: it returns the cluster it was given, the expected
    resource and a nil error, and leaves the world as it was, so that no
    remote call (no create-instance call in particular) is issued and the
    cluster object is not written. *)
Theorem Apply_converged_noop E r actual expected w :
  IsEqual E actual expected = (true, None) →
  Apply E r actual expected w
  = (Done (Some (cluster w), Some expected, None), w).
Proof. intros Hcmp. unfold Apply. by rewrite Hcmp. Qed.

(** [Apply] on a converged pair of the scenario, from a world that has
    already seen a create call. *)
Lemma Apply_converged_noop_witness :
  let E := Scenario.env Scenario.never_ready Scenario.both_networks in
  let r := Scenario.receiver "master" "i-123" in
  let expected := Scenario.expected_of "master" "i-123" in
  Apply E r expected expected Scenario.world0
  = (Done (Some Scenario.cluster0, Some expected, None), Scenario.world0).
Proof.
  apply (Apply_converged_noop
           (Scenario.env Scenario.never_ready Scenario.both_networks)).
  reflexivity.
Defined.

Lemma returns_store_bind {A} (m : M A) (f : A → M Reconciled) :
  (∀ a, returns_store (f a)) → returns_store (m ≫= f).
Proof.
  intros Hf w c res err.
  unfold outcome, after, mbind, M_bind in *.
  destruct (m w) as [[a|reason] w1]; simpl; [apply Hf | done].
Qed.

Lemma returns_store_nil res err : returns_store (mret (None, res, err)).
Proof. intros w c res' err'. unfold outcome. simpl. done. Qed.

Lemma returns_store_immutable res err :
  returns_store (immutable ← get_cluster; mret (Some immutable, res, err)).
Proof.
  intros w c res' err'. unfold outcome, after. simpl. by intros [= <- _ _].
Qed.

(** A cluster that [Apply] returns is the shared object as [Apply] leaves
    it. *)
Lemma Apply_returns_store E r actual expected :
  returns_store (Apply E r actual expected).
Proof.
  unfold Apply.
  repeat first
    [ apply returns_store_nil
    | apply returns_store_immutable
    | apply returns_store_bind; intros
    | case_match ].
Qed.

(** The injections of a worker, for any list that the poll returns. *)
Lemma Apply_node_injects E r actual expected w pool ip rest :
  IsEqual E actual expected = (false, None) →
  ResourceGroup.ServerPool_ r = Some pool →
  ServerPool.Type_ pool = ServerPoolTypeNode →
  outcome (getMasterIP E (ResourceGroup.Identifier r)) w
  = Done (ip :: rest, None) →
  let w' := after (Apply E r actual expected) w in
  Cluster.Endpoint (cluster w') = ip
  ∧ Cluster.Item "INJECTEDMASTER" (cluster w')
    = Some (ip ++ ":" ++ Cluster.Port (cluster w))
  ∧ Cluster.Item "INJECTEDPORT" (cluster w') = Some (Cluster.Port (cluster w)).
Proof.
  intros Hcmp Hpool Htype Hpoll.
  pose proof (getMasterIP_cluster E (ResourceGroup.Identifier r) w) as Hc.
  unfold outcome, after in *.
  unfold Apply. rewrite Hcmp, Hpool. run. rewrite Htype. simpl.
  destruct (getMasterIP E (ResourceGroup.Identifier r) w) as [res w1].
  simpl in *. subst res. simpl.
  repeat case_match; simpl in *; simplify_eq/=.
  all: read_cluster; rewrite ?Hc; repeat split; try done.
  all: try (by rewrite lookup_insert_eq).
  all: by rewrite lookup_insert_ne, lookup_insert_eq.
Qed.

(** The port injection of any other role. *)
Lemma Apply_other_injects_port E r actual expected w pool :
  IsEqual E actual expected = (false, None) →
  ResourceGroup.ServerPool_ r = Some pool →
  ServerPool.Type_ pool ≠ ServerPoolTypeNode →
  Cluster.Item "INJECTEDPORT" (cluster (after (Apply E r actual expected) w))
  = Some (Cluster.Port (cluster w)).
Proof.
  intros Hcmp Hpool Htype. apply String.eqb_neq in Htype.
  unfold after, Apply. rewrite Hcmp, Hpool. run. rewrite Htype. simpl.
  repeat case_match; simpl in *; simplify_eq/=; poll_frame; read_cluster;
    rewrite ?Hc; simpl; by rewrite lookup_insert_eq.
Qed.

(** C9. [Apply] on a diverged pair, for a worker ([ServerPool.Type] is
    [ServerPoolTypeNode]) whose poll finds the addresses [ip :: rest] at
    some fetch within the ceiling: the cluster then has [ip] as its
    endpoint, ["ip:port"] under [INJECTEDMASTER] and the port under
    [INJECTEDPORT]; for any other role the port is under [INJECTEDPORT] all
    the same. A cluster that [Apply] returns is this cluster. The port is
    the one of the cluster that [Apply] was given. *)
Theorem Apply_injects_master_address E r actual expected w pool :
  IsEqual E actual expected = (false, None) →
  ResourceGroup.ServerPool_ r = Some pool →
  let w' := after (Apply E r actual expected) w in
  let port := Cluster.Port (cluster w) in
  (ServerPool.Type_ pool = ServerPoolTypeNode →
   ∀ k ip rest,
     k < MasterIPAttempts →
     (∀ j, j < k → pending (fetch E w (ResourceGroup.Identifier r) j)) →
     found (ip :: rest) (fetch E w (ResourceGroup.Identifier r) k) →
     Cluster.Endpoint (cluster w') = ip
     ∧ Cluster.Item "INJECTEDMASTER" (cluster w') = Some (ip ++ ":" ++ port)
     ∧ Cluster.Item "INJECTEDPORT" (cluster w') = Some port)
  ∧ (ServerPool.Type_ pool ≠ ServerPoolTypeNode →
     Cluster.Item "INJECTEDPORT" (cluster w') = Some port)
  ∧ (∀ c res err,
       outcome (Apply E r actual expected) w = Done (Some c, res, err) →
       c = cluster w').
Proof.
  intros Hcmp Hpool w' port. split; [|split].
  - intros Htype k ip rest Hk Hpre Hfound.
    apply (Apply_node_injects E r actual expected w pool ip rest); try done.
    unfold outcome.
    by rewrite (getMasterIP_found E _ w k (ip :: rest)).
  - intros Htype. by apply (Apply_other_injects_port E r actual expected w pool).
  - apply Apply_returns_store.
Qed.

(** A worker of the scenario, whose control plane reports its address at
    the third fetch. *)
Lemma Apply_injects_master_address_witness :
  let E := Scenario.env Scenario.ready_at_third Scenario.both_networks in
  let w' := after (Apply E (Scenario.receiver "node" "i-123")
                     (Scenario.actual_of "node" "")
                     (Scenario.expected_of "node" "")) Scenario.world0 in
  Cluster.Endpoint (cluster w') = "10.0.0.5"
  ∧ Cluster.Item "INJECTEDMASTER" (cluster w') = Some "10.0.0.5:443"
  ∧ Cluster.Item "INJECTEDPORT" (cluster w') = Some "443".
Proof.
  refine (proj1 (Apply_injects_master_address
            (Scenario.env Scenario.ready_at_third Scenario.both_networks)
            (Scenario.receiver "node" "i-123")
            (Scenario.actual_of "node" "") (Scenario.expected_of "node" "")
            Scenario.world0 (Scenario.pool "node") _ _) _ 2 "10.0.0.5" [] _ _ _).
  - reflexivity.
  - reflexivity.
  - reflexivity.
  - unfold MasterIPAttempts. lia.
  - intros j Hj. destruct j as [|[|j]]; [reflexivity | reflexivity | lia].
  - split; [reflexivity | discriminate].
Defined.

(** An exhausted poll after a successful create, for every remote: a
    control-plane member whose instance never reports an address is
    returned as reconciled, with an empty endpoint. *)
Lemma Apply_master_exhausted E r actual expected w pool expectedPool n1 n2 :
  IsEqual E actual expected = (false, None) →
  ResourceGroup.ServerPool_ r = Some pool →
  ResourceGroup.ServerPool_ expected = Some expectedPool →
  ServerPool.Type_ pool = ServerPoolTypeMaster →
  (∀ c, snd (BuildBootstrapScript E (ServerPool.BootstrapScripts pool) c)
        = None) →
  pick_networks (fst (Network_List (Sdk E))) = (Some n1, Some n2) →
  (∀ input, ∃ inst,
     Instances_Create (Sdk E) input = (Some inst, None)
     ∧ ∀ j, j < MasterIPAttempts → pending (fetch E w (Instance.ID inst) j)) →
  ∃ c res,
    outcome (Apply E r actual expected) w = Done (Some c, Some res, None)
    ∧ Cluster.Endpoint c = "".
Proof.
  intros Hcmp Hpool Hexp Htype Hscript Hnets Hcreate.
  unfold outcome, Apply. rewrite Hcmp, Hpool. run. rewrite Htype. simpl.
  match goal with
  | |- context [BuildBootstrapScript E ?s ?c] =>
      pose proof (Hscript c) as Hs;
      destruct (BuildBootstrapScript E s c) as [script serr]
  end.
  simpl in Hs. subst serr.
  destruct (Images_List _ _) as [images ierr].
  destruct (Network_List (Sdk E)) as [nets nerr]. simpl in Hnets.
  rewrite Hnets. simpl.
  match goal with
  | |- context [Instances_Create (Sdk E) ?i] =>
      destruct (Hcreate i) as (inst & Hci & Hp); rewrite Hci
  end.
  simpl. rewrite getMasterIP_exhausted by exact Hp.
  simpl. rewrite Hexp. simpl. eauto.
Qed.

(** C1 (defect of the code). A control-plane member ([ServerPool.Type] is
    [ServerPoolTypeMaster]) whose create call succeeds and whose poll
    spends all [MasterIPAttempts] fetches without address: [Apply] does
    not return the error "Unable to find master IP addresses". It returns
    a resource and a nil error, with the empty string written as the
    endpoint of the cluster, because the exhausted poll hands back three
    empty strings and the test [len(masterIPs) == 0] fails. *)
Theorem Apply_master_exhausted_succeeds :
  let E := Scenario.env Scenario.never_ready Scenario.both_networks in
  let run := Apply E (Scenario.receiver "master" "")
               (Scenario.actual_of "master" "")
               (Scenario.expected_of "master" "") Scenario.world0 in
  length (creates (trace (snd run))) = 1
  ∧ fetches (snd run) = MasterIPAttempts
  ∧ ∃ c res, fst run = Done (Some c, Some res, None)
             ∧ ResourceGroup.Identifier res = "i-123"
             ∧ Cluster.Endpoint c = "".
Proof.
  split; [|split].
  - vm_compute. reflexivity.
  - vm_compute. reflexivity.
  - eexists _, _. split; [vm_compute; reflexivity|]. split; reflexivity.
Qed.

(** *** Missing networks *)

(** Without a network of that name in the listing, [net1] stays nil. *)
Lemma pick_networks_no_public nets :
  (∀ n, n ∈ nets → Network.Name n ≠ NetworkName) →
  fst (pick_networks nets) = None.
Proof.
  induction nets as [|n nets IH] using rev_ind; intros Hno; [done|].
  unfold pick_networks in *. rewrite fold_left_app. simpl.
  assert (Network.Name n ≠ NetworkName) as Hn by (apply Hno; set_solver).
  apply String.eqb_neq in Hn. rewrite Hn.
  apply IH. intros m Hm. apply Hno. set_solver.
Qed.

(** Without a network of that name in the listing, [net2] stays nil. *)
Lemma pick_networks_no_fabric nets :
  (∀ n, n ∈ nets → Network.Name n ≠ FabricNetwork) →
  snd (pick_networks nets) = None.
Proof.
  induction nets as [|n nets IH] using rev_ind; intros Hno; [done|].
  unfold pick_networks in *. rewrite fold_left_app. simpl.
  assert (Network.Name n ≠ FabricNetwork) as Hn by (apply Hno; set_solver).
  apply String.eqb_neq in Hn. rewrite Hn.
  apply IH. intros m Hm. apply Hno. set_solver.
Qed.

Lemma creates_app t1 t2 :
  creates (t1 ++ t2)%list = (creates t1 ++ creates t2)%list.
Proof. apply omap_app. Qed.

Lemma creates_rounds_trace identifier k :
  creates (rounds_trace identifier k) = [].
Proof. induction k as [|k IH]; [done|]. exact IH. Qed.

(** A poll issues no create call. *)
Lemma getMasterIP_creates E identifier w :
  creates (trace (after (getMasterIP E identifier) w)) = creates (trace w).
Proof.
  unfold after, getMasterIP.
  destruct (getMasterIP_loop_spec E identifier (replicate 3 "")
              MasterIPAttempts w) as [[_ ->]|(k & _ & _ & _ & ->)];
    unfold rounds, last_fetch; cbn [snd trace];
    rewrite !creates_app, creates_rounds_trace; simpl;
    by rewrite ?app_nil_r.
Qed.

(** On a diverged pair, when the listing has no network named
    [NetworkName] or none named [FabricNetwork], no run of [Apply] issues
    a create call, and none returns a nil error: a run that gets as far as
    building the create input stops in the panic of [net1.Id] or
    [net2.Id]. *)
Lemma Apply_missing_network E r actual expected w :
  IsEqual E actual expected = (false, None) →
  fst (pick_networks (fst (Network_List (Sdk E)))) = None
  ∨ snd (pick_networks (fst (Network_List (Sdk E)))) = None →
  creates (trace (after (Apply E r actual expected) w)) = creates (trace w)
  ∧ ∀ c res, outcome (Apply E r actual expected) w ≠ Done (c, res, None).
Proof.
  intros Hcmp Hmiss.
  destruct (Network_List (Sdk E)) as [nets nerr] eqn:Hlist. simpl in Hmiss.
  destruct (pick_networks nets) as [net1 net2] eqn:Hpick. simpl in Hmiss.
  assert (∀ (n1 n2 : Network.t), (net1, net2) ≠ (Some n1, Some n2)) as Hnil.
  { intros n1 n2 [= -> ->]. by destruct Hmiss. }
  clear Hmiss.
  unfold outcome, after, Apply. rewrite Hcmp. run. rewrite Hlist. simpl.
  rewrite Hpick.
  destruct (ResourceGroup.ServerPool_ r) as [pool|]; simpl; [|done].
  destruct (String.eqb (ServerPool.Type_ pool) ServerPoolTypeNode); simpl.
  - pose proof (getMasterIP_creates E (ResourceGroup.Identifier r) w) as Ht.
    unfold after in Ht.
    destruct (getMasterIP E (ResourceGroup.Identifier r) w)
      as [[[ips [e|]]|reason] w1]; simpl in *; [done| |done].
    destruct ips as [|ip rest]; simpl; [done|].
    destruct (BuildBootstrapScript _ _ _) as [script [e|]]; simpl; [done|].
    destruct (Images_List _ _) as [images ierr]; simpl.
    destruct net1 as [n1|], net2 as [n2|]; [by destruct (Hnil n1 n2)|..];
      simpl; rewrite ?creates_app, Ht; simpl; by rewrite ?app_nil_r.
  - destruct (BuildBootstrapScript _ _ _) as [script [e|]]; simpl; [done|].
    destruct (Images_List _ _) as [images ierr]; simpl.
    destruct net1 as [n1|], net2 as [n2|]; [by destruct (Hnil n1 n2)|..];
      simpl; rewrite ?creates_app; simpl; by rewrite ?app_nil_r.
Qed.

(** C4 (defect of the code). The network listing succeeds and has neither
    a network named Joyent-SDC-Public nor one named My-Fabric-Network:
    [Apply] does not reach the create-instance call with empty network
    ids. [net1] and [net2] are nil pointers, and building the create input
    dereferences them, so [Apply] panics and no create call is issued. *)
Theorem Apply_missing_network_panics :
  let E := Scenario.env Scenario.never_ready Scenario.other_networks in
  let run := Apply E (Scenario.receiver "master" "")
               (Scenario.actual_of "master" "")
               (Scenario.expected_of "master" "") Scenario.world0 in
  Network_List (Sdk E) = (Scenario.other_networks, None)
  ∧ pick_networks Scenario.other_networks = (None, None)
  ∧ fst run = Panic nil_dereference
  ∧ trace (snd run)
    = [ CallImagesList {| ListImagesInput.Name := ImageName;
                          ListImagesInput.Version := ImageVersion |};
        CallNetworkList ]
  ∧ creates (trace (snd run)) = [].
Proof. repeat split; vm_compute; reflexivity. Qed.

(** ** [Actual] *)

Lemma Identifier_mkResource name tags identifier sp :
  ResourceGroup.Identifier (mkResource name tags identifier sp) = identifier.
Proof. reflexivity. Qed.

Lemma Tags_mkResource name tags identifier sp :
  ResourceGroup.Tags (mkResource name tags identifier sp) = tags.
Proof. reflexivity. Qed.

(** A fetch that answers with an instance and no error: the resource has
    the name and the id of the live instance. *)
Lemma Actual_fetch_succeeds E r w pool inst :
  ResourceGroup.ServerPool_ r = Some pool →
  ResourceGroup.Identifier r ≠ "" →
  fetch E w (ResourceGroup.Identifier r) 0 = (Some inst, None) →
  Actual E r w
  = (Done (Some (cluster w),
           Some (mkResource (Instance.Name inst)
                   {[ "Name" := ServerPool.Name pool ]}
                   (Instance.ID inst) None),
           None),
     last_fetch w (ResourceGroup.Identifier r) 0).
Proof.
  intros Hpool Hid Hfetch. apply String.eqb_neq in Hid.
  unfold fetch in Hfetch. rewrite Nat.add_0_r in Hfetch.
  unfold Actual. rewrite Hpool. run.
  rewrite !Identifier_mkResource, ?Tags_mkResource, Hid.
  unfold SdkInstancesGet, last_fetch. simpl. rewrite Hfetch. simpl.
  by rewrite Nat.add_1_r.
Qed.

(** A fetch that answers with an error and an instance all the same: the
    error is returned, and no resource. *)
Lemma Actual_fetch_fails_with_instance E r w pool inst e :
  ResourceGroup.ServerPool_ r = Some pool →
  ResourceGroup.Identifier r ≠ "" →
  fetch E w (ResourceGroup.Identifier r) 0 = (Some inst, Some e) →
  outcome (Actual E r) w = Done (None, None, Some e).
Proof.
  intros Hpool Hid Hfetch. apply String.eqb_neq in Hid.
  unfold fetch in Hfetch. rewrite Nat.add_0_r in Hfetch.
  unfold outcome, Actual. rewrite Hpool. run.
  rewrite !Identifier_mkResource, ?Tags_mkResource, Hid.
  unfold SdkInstancesGet. simpl. by rewrite Hfetch.
Qed.

(** A fetch that answers with an error and a nil instance, for every
    remote: [instance.Name] is read before the error is looked at, and
    [Actual] panics. *)
Lemma Actual_fetch_fails_nil E r w pool e :
  ResourceGroup.ServerPool_ r = Some pool →
  ResourceGroup.Identifier r ≠ "" →
  fetch E w (ResourceGroup.Identifier r) 0 = (None, Some e) →
  outcome (Actual E r) w = Panic nil_dereference.
Proof.
  intros Hpool Hid Hfetch. apply String.eqb_neq in Hid.
  unfold fetch in Hfetch. rewrite Nat.add_0_r in Hfetch.
  unfold outcome, Actual. rewrite Hpool. run.
  rewrite !Identifier_mkResource, ?Tags_mkResource, Hid.
  unfold SdkInstancesGet. simpl. by rewrite Hfetch.
Qed.

(** C3 (defect of the code). [Actual] on a resource with the identifier
    ["i-123"], when the get-instance fetch fails the way the client
    reports a failure (a nil instance and an error): [Actual] does not
    return the error. It reads [instance.Name] before it tests [err], and
    stops in a nil pointer dereference. *)
Theorem Actual_fetch_error_panics :
  let E := Scenario.env Scenario.unreachable Scenario.both_networks in
  let r := Scenario.receiver "master" "i-123" in
  ResourceGroup.Identifier r = "i-123"
  ∧ fetch E Scenario.world0 "i-123" 0 = (None, Some "unable to get machine")
  ∧ outcome (Actual E r) Scenario.world0 = Panic nil_dereference.
Proof. repeat split; vm_compute; reflexivity. Qed.

(** ** [Delete] *)

(** C8. [Delete] on an actual resource without identifier returns the
    error "Unable to delete VPC resource without ID [name]" and leaves the
    world as it was: no remote call, no write to the cluster. With an
    identifier it returns a resource with the name and tags of the
    receiver and an empty identifier, and the cluster rendered from it
    (that name, a fresh provider configuration); the trace is the one it
    started with, so no remote call is issued, a deletion least of all. *)
Theorem Delete_requires_identifier E r actual w :
  (ResourceGroup.Identifier actual = "" →
   Delete E r actual w
   = (Done (None, None,
            Some ("Unable to delete VPC resource without ID ["
                    ++ ResourceGroup.Name actual ++ "]")),
      w))
  ∧ (ResourceGroup.Identifier actual ≠ "" →
     let rendered :=
       {| Cluster.Name := ResourceGroup.Name r;
          Cluster.Config := ProviderConfig.zero |} in
     let cleared :=
       mkResource (ResourceGroup.Name r) (ResourceGroup.Tags r) "" None in
     Delete E r actual w
     = (Done (Some rendered, Some cleared, None),
        {| fetches := fetches w; trace := trace w; cluster := rendered |})
     ∧ ResourceGroup.Identifier cleared = "").
Proof.
  split.
  - intros Hid. unfold Delete. by rewrite Hid.
  - intros Hid. apply String.eqb_neq in Hid.
    unfold Delete. by rewrite Hid.
Qed.

(** [Delete] of the scenario, without and with an identifier. *)
Lemma Delete_requires_identifier_witness :
  let E := Scenario.env Scenario.never_ready Scenario.both_networks in
  let r := Scenario.receiver "master" "i-123" in
  outcome (Delete E r (Scenario.actual_of "master" "")) Scenario.world0
  = Done (None, None,
          Some "Unable to delete VPC resource without ID [demo-master]")
  ∧ trace (after (Delete E r (Scenario.actual_of "master" "i-123"))
             Scenario.world0) = [].
Proof.
  split.
  - unfold outcome.
    rewrite (proj1 (Delete_requires_identifier
               (Scenario.env Scenario.never_ready Scenario.both_networks)
               (Scenario.receiver "master" "i-123")
               (Scenario.actual_of "master" "") Scenario.world0));
      reflexivity.
  - unfold after.
    rewrite (proj1 (proj2 (Delete_requires_identifier
               (Scenario.env Scenario.never_ready Scenario.both_networks)
               (Scenario.receiver "master" "i-123")
               (Scenario.actual_of "master" "i-123") Scenario.world0)
               ltac:(discriminate)));
      reflexivity.
Defined.

(** ** [NewSdk] *)

Section NewSdk.
Import tritonSDK.
Variable H : Host.

Local Abbreviation keyMaterial := (Getenv H "TRITON_KEY_MATERIAL").
Local Abbreviation userName := (Getenv H "TRITON_USER").

(** The two tests of [keyID] are tests of a constant that is not
    empty. *)
Lemma keyID_not_empty : String.eqb keyID "" = false.
Proof. reflexivity. Qed.

Lemma NewSdk_unfold :
  NewSdk H
  = (signer ← newSigner H keyMaterial userName;
     let config := clientConfig userName signer in
     let '(computeClient, err) := compute_NewClient H config in
     match err with
     | Some e => Fatal ("Compute NewClient(): " ++ e)
     | None =>
         let '(networkClient, err) := network_NewClient H config in
         match err with
         | Some e => Fatal ("Network NewClient(): " ++ e)
         | None =>
             Return (Some {| Compute := computeClient;
                             Network := networkClient |}, None)
         end
     end).
Proof. reflexivity. Qed.

(** A run of [NewSdk] returns an [Sdk] and a nil error, or ends the
    process. *)
Lemma NewSdk_cases :
  (∃ sdk, NewSdk H = Return (Some sdk, None))
  ∨ (∃ msg, NewSdk H = Fatal msg).
Proof.
  rewrite NewSdk_unfold. unfold mbind, Exec_bind.
  destruct (newSigner H keyMaterial userName) as [signer|msg]; [|eauto].
  simpl. destruct (compute_NewClient H _) as [cc [e|]]; [eauto|].
  destruct (network_NewClient H _) as [nc [e|]]; eauto.
Qed.

(** C10. A run of [NewSdk] that returns, returns an [Sdk] (not nil) and
    a nil error. The result of the two "Empty $TRITON_KEY_ID" branches
    is never returned, as both test the constant [keyID], which is not
    empty. A failure in creating the signer, in reading the key or in
    building a client does not come back as an error: the run ends in
    [log.Fatalf] with the message of that failure. *)
Theorem NewSdk_returns_sdk_or_exits :
  (∀ s e, NewSdk H = Return (s, e) → (∃ sdk, s = Some sdk) ∧ e = None)
  ∧ NewSdk H ≠ Return (None, Some "Empty $TRITON_KEY_ID")
  ∧ (keyMaterial = "" →
     ∀ e, snd (NewSSHAgentSigner H
                 {| Agent_KeyID := keyID;
                    Agent_AccountName := accountName |}) = Some e →
          NewSdk H = Fatal ("Error Creating SSH Agent Signer: " ++ e))
  ∧ (keyMaterial ≠ "" →
     ∀ msg, readKeyBytes H keyMaterial = Fatal msg →
            NewSdk H = Fatal msg)
  ∧ (keyMaterial ≠ "" →
     ∀ keyBytes e,
       readKeyBytes H keyMaterial = Return keyBytes →
       snd (NewPrivateKeySigner H
              {| Key_KeyID := keyID; Key_PrivateKeyMaterial := keyBytes;
                 Key_AccountName := accountName;
                 Key_Username := userName |}) = Some e →
       NewSdk H = Fatal ("Error Creating SSH Private Key Signer: " ++ e))
  ∧ (∀ signer e,
       newSigner H keyMaterial userName = Return signer →
       snd (compute_NewClient H (clientConfig userName signer)) = Some e →
       NewSdk H = Fatal ("Compute NewClient(): " ++ e))
  ∧ (∀ signer e,
       newSigner H keyMaterial userName = Return signer →
       snd (compute_NewClient H (clientConfig userName signer)) = None →
       snd (network_NewClient H (clientConfig userName signer)) = Some e →
       NewSdk H = Fatal ("Network NewClient(): " ++ e)).
Proof.
  split; [|split; [|split; [|split; [|split; [|split]]]]].
  - intros s e Hret.
    destruct NewSdk_cases as [[sdk Hsdk]|[msg Hmsg]]; rewrite Hret in *.
    + injection Hsdk as -> ->. eauto.
    + discriminate.
  - destruct NewSdk_cases as [[sdk ->]|[msg ->]]; discriminate.
  - intros Hkm e He. rewrite NewSdk_unfold.
    unfold newSigner, agentSigner. rewrite Hkm. simpl.
    destruct (NewSSHAgentSigner H _) as [signer err]. simpl in He.
    by subst err.
  - intros Hkm msg Hread. apply String.eqb_neq in Hkm.
    rewrite NewSdk_unfold. unfold newSigner, keySigner.
    by rewrite Hkm, Hread.
  - intros Hkm keyBytes e Hread He. apply String.eqb_neq in Hkm.
    rewrite NewSdk_unfold. unfold newSigner, keySigner.
    rewrite Hkm, Hread. simpl.
    destruct (NewPrivateKeySigner H _) as [signer err]. simpl in He.
    by subst err.
  - intros signer e Hsigner He. rewrite NewSdk_unfold, Hsigner. simpl.
    destruct (compute_NewClient H _) as [cc err]. simpl in He.
    by subst err.
  - intros signer e Hsigner Hc He. rewrite NewSdk_unfold, Hsigner. simpl.
    destruct (compute_NewClient H _) as [cc err]. simpl in Hc. subst err.
    destruct (network_NewClient H _) as [nc err]. simpl in He.
    by subst err.
Qed.

End NewSdk.

(** [NewSdk] on a host whose ssh agent holds the key returns an [Sdk], and
    on a host whose agent cannot be reached it exits. *)
Lemma NewSdk_returns_sdk_or_exits_witness :
  (∃ sdk, tritonSDK.NewSdk (Scenario.agent_host None)
          = tritonSDK.Return (Some sdk, None))
  ∧ tritonSDK.NewSdk
      (Scenario.agent_host (Some "unable to connect to the ssh agent"))
    = tritonSDK.Fatal
        "Error Creating SSH Agent Signer: unable to connect to the ssh agent".
Proof.
  split.
  - destruct (tritonSDK.NewSdk (Scenario.agent_host None))
      as [[s e]|msg] eqn:Hrun.
    + destruct (proj1 (NewSdk_returns_sdk_or_exits (Scenario.agent_host None))
                  s e Hrun) as [[sdk ->] ->].
      by exists sdk.
    + vm_compute in Hrun. discriminate.
  - apply (proj1 (proj2 (proj2 (NewSdk_returns_sdk_or_exits
              (Scenario.agent_host
                 (Some "unable to connect to the ssh agent")))))).
    + reflexivity.
    + reflexivity.
Defined.

(** * Further properties of the code *)

(** ** The poller: calls, sleeps and results *)

Lemma slept_app t1 t2 : slept (t1 ++ t2)%list = (slept t1 + slept t2)%Z.
Proof.
  induction t1 as [|c t1 IH]; simpl; [lia|].
  destruct c; rewrite ?IH; lia.
Qed.

Lemma slept_rounds_trace identifier k :
  slept (rounds_trace identifier k)
  = (MasterIPSleepSecondsPerAttempt * Z.of_nat k)%Z.
Proof.
  induction k as [|k IH]; [reflexivity|].
  change (rounds_trace identifier (S k))
    with (CallInstancesGet {| GetInstanceInput.ID := identifier |}
            :: CallSleep MasterIPSleepSecondsPerAttempt
            :: rounds_trace identifier k).
  cbn [slept fold_right]. fold (slept (rounds_trace identifier k)).
  rewrite IH. lia.
Qed.

Lemma poll_call_rounds_trace identifier k :
  Forall (poll_call identifier) (rounds_trace identifier k).
Proof.
  induction k as [|k IH]; [constructor|].
  constructor; [by left|]. constructor; [by right|]. exact IH.
Qed.

(** The calls that a poll adds to the trace. *)
Lemma getMasterIP_calls E identifier w :
  ∃ calls,
    trace (after (getMasterIP E identifier) w) = (trace w ++ calls)%list
    ∧ Forall (poll_call identifier) calls.
Proof.
  destruct (getMasterIP_cases E identifier w)
    as [(_ & Heq & _)|(k & _ & _ & _ & Heq & _)].
  - exists (rounds_trace identifier MasterIPAttempts). split.
    + unfold after. by rewrite Heq.
    + apply poll_call_rounds_trace.
  - exists (rounds_trace identifier k
              ++ [CallInstancesGet {| GetInstanceInput.ID := identifier |}])%list.
    split.
    + unfold after. by rewrite Heq.
    + apply Forall_app. split; [apply poll_call_rounds_trace|].
      constructor; [by left|constructor].
Qed.

(** X1. The calls of a poll, along every path: the trace grows by
    get-instance calls on the polled identifier and sleeps of the fixed
    interval only, the cluster object is not written and no create call is
    issued. *)
Theorem getMasterIP_only_fetches_and_sleeps E identifier w :
  ∃ calls,
    trace (after (getMasterIP E identifier) w) = (trace w ++ calls)%list
    ∧ Forall (poll_call identifier) calls
    ∧ cluster (after (getMasterIP E identifier) w) = cluster w
    ∧ creates (trace (after (getMasterIP E identifier) w))
      = creates (trace w).
Proof.
  destruct (getMasterIP_calls E identifier w) as (calls & Htrace & Hcalls).
  exists calls. split; [done|]. split; [done|]. split.
  - apply getMasterIP_cluster.
  - apply getMasterIP_creates.
Qed.

(** X2. The time a poll sleeps. A poll that stops at fetch [k] (the first
    fetch that fails or reports an address) has slept [k] intervals of
    [MasterIPSleepSecondsPerAttempt] seconds; a poll that finds no address
    in any of its [MasterIPAttempts] fetches has slept [MasterIPAttempts]
    intervals, one after the last fetch too. No poll sleeps longer than
    [MasterIPAttempts] intervals (500 seconds). *)
Theorem getMasterIP_sleep_time E identifier w :
  ∃ calls,
    trace (after (getMasterIP E identifier) w) = (trace w ++ calls)%list
    ∧ (slept calls
       ≤ MasterIPSleepSecondsPerAttempt * Z.of_nat MasterIPAttempts)%Z
    ∧ ((∀ j, j < MasterIPAttempts → pending (fetch E w identifier j)) →
       slept calls = 500%Z)
    ∧ (∀ k, k < MasterIPAttempts →
            (∀ j, j < k → pending (fetch E w identifier j)) →
            ¬ pending (fetch E w identifier k) →
            slept calls = (MasterIPSleepSecondsPerAttempt * Z.of_nat k)%Z).
Proof.
  destruct (getMasterIP_cases E identifier w)
    as [(Hall & Heq & _)|(k & Hk & Hpre & Hnp & Heq & _)].
  - exists (rounds_trace identifier MasterIPAttempts).
    split; [unfold after; by rewrite Heq|].
    rewrite slept_rounds_trace. split; [lia|]. split; [done|].
    intros k Hk _ Hnp. destruct Hnp. by apply Hall.
  - exists (rounds_trace identifier k
              ++ [CallInstancesGet {| GetInstanceInput.ID := identifier |}])%list.
    split; [unfold after; by rewrite Heq|].
    rewrite slept_app, slept_rounds_trace. simpl.
    unfold MasterIPSleepSecondsPerAttempt.
    split; [lia|]. split.
    + intros Hall. destruct Hnp. by apply Hall.
    + intros k' Hk' Hpre' Hnp'.
      assert (k' = k) as ->; [|lia].
      destruct (Nat.lt_trichotomy k' k) as [Hlt|[->|Hgt]]; [|done|].
      * destruct Hnp'. by apply Hpre.
      * destruct Hnp. by apply Hpre'.
Qed.

(** The poll of X2 on a remote that reports the address at the third
    fetch: two intervals of sleep. *)
Lemma getMasterIP_sleep_time_witness :
  let E := Scenario.env Scenario.ready_at_third Scenario.both_networks in
  ∃ calls,
    trace (after (getMasterIP E "i-123") Scenario.world0) = calls
    ∧ slept calls = 10%Z.
Proof.
  destruct (getMasterIP_sleep_time
              (Scenario.env Scenario.ready_at_third Scenario.both_networks)
              "i-123" Scenario.world0) as (calls & Htrace & _ & _ & Hstop).
  exists calls. split; [exact Htrace|].
  apply (Hstop 2).
  - unfold MasterIPAttempts. lia.
  - intros [|[|j]] Hj; [reflexivity | reflexivity | lia].
  - simpl. discriminate.
Defined.

(** X3. A poll that returns a nil error returns at least one string: the
    addresses of the instance, or the three blanks of [ret]. So
    [masterIPs[0]] in [Apply] cannot be out of range, and a caller cannot
    tell an exhausted poll by the length of the result. *)
Theorem getMasterIP_result_never_empty E identifier w ips :
  outcome (getMasterIP E identifier) w = Done (ips, None) →
  ips ≠ []
  ∧ ((∀ j, j < MasterIPAttempts → pending (fetch E w identifier j)) →
     ips = [""; ""; ""]).
Proof.
  intros Hout. split; [by apply (getMasterIP_nonempty E identifier w)|].
  intros Hall. unfold outcome in Hout.
  rewrite getMasterIP_exhausted in Hout by done.
  simpl in Hout. by injection Hout as <-.
Qed.

Lemma getMasterIP_result_never_empty_witness :
  ["10.0.0.5"] ≠ ([] : list string).
Proof.
  apply (getMasterIP_result_never_empty
           (Scenario.env Scenario.ready_at_third Scenario.both_networks)
           "i-123" Scenario.world0 ["10.0.0.5"]).
  reflexivity.
Defined.

(** ** [Actual] and [Expected] *)

(** X4. [Actual] only reads: along every path it leaves the cluster object
    as it was and issues no create call. It issues no remote call at all
    when the identifier is empty (or the receiver has no server pool), and
    otherwise exactly one get-instance call, on the identifier of the
    receiver. *)
Theorem Actual_only_reads E r w :
  cluster (after (Actual E r) w) = cluster w
  ∧ creates (trace (after (Actual E r) w)) = creates (trace w)
  ∧ (ResourceGroup.Identifier r = "" ∨ ResourceGroup.ServerPool_ r = None →
     after (Actual E r) w = w)
  ∧ (ResourceGroup.Identifier r ≠ "" →
     ResourceGroup.ServerPool_ r ≠ None →
     after (Actual E r) w = last_fetch w (ResourceGroup.Identifier r) 0).
Proof.
  unfold after, Actual. run.
  destruct (ResourceGroup.ServerPool_ r) as [pool|]; simpl.
  - rewrite ?Identifier_mkResource.
    destruct (String.eqb_spec (ResourceGroup.Identifier r) "") as [Hid|Hid];
      simpl.
    + repeat split; try done.
    + unfold SdkInstancesGet, last_fetch. simpl. rewrite Nat.add_1_r.
      destruct (Instances_Get _ _ _) as [[inst|] [e|]]; simpl;
        rewrite ?creates_app; simpl; rewrite ?app_nil_r;
        repeat split; try done; by intros [?|?].
  - repeat split; try done.
Qed.

(** X5. [Actual] on a receiver without identifier (not yet created):
    without any remote call it returns the cluster it was given, a nil
    error and a resource with the name of the receiver, the tag [Name] set
    to the name of its server pool, no identifier and no server pool. *)
Theorem Actual_without_identifier E r w pool :
  ResourceGroup.ServerPool_ r = Some pool →
  ResourceGroup.Identifier r = "" →
  Actual E r w
  = (Done (Some (cluster w),
           Some (mkResource (ResourceGroup.Name r)
                   {[ "Name" := ServerPool.Name pool ]} "" None),
           None),
     w).
Proof.
  intros Hpool Hid. unfold Actual. rewrite Hpool. run.
  rewrite !Identifier_mkResource, Hid. reflexivity.
Qed.

Lemma Actual_without_identifier_witness :
  outcome (Actual (Scenario.env Scenario.unreachable Scenario.both_networks)
             (Scenario.receiver "node" "")) Scenario.world0
  = Done (Some Scenario.cluster0, Some (Scenario.actual_of "node" ""), None).
Proof.
  unfold outcome.
  rewrite (Actual_without_identifier
             (Scenario.env Scenario.unreachable Scenario.both_networks)
             (Scenario.receiver "node" "") Scenario.world0
             (Scenario.pool "node")); reflexivity.
Defined.

(** X6. [Actual] on a receiver with an identifier, when the fetch answers
    with an instance and no error: after that one fetch it returns the
    cluster it was given and a resource with the name and the id of the
    live instance (not those of the receiver), the tag [Name] of the
    server pool and no server pool. *)
Theorem Actual_reads_live_instance E r w pool inst :
  ResourceGroup.ServerPool_ r = Some pool →
  ResourceGroup.Identifier r ≠ "" →
  fetch E w (ResourceGroup.Identifier r) 0 = (Some inst, None) →
  Actual E r w
  = (Done (Some (cluster w),
           Some (mkResource (Instance.Name inst)
                   {[ "Name" := ServerPool.Name pool ]}
                   (Instance.ID inst) None),
           None),
     last_fetch w (ResourceGroup.Identifier r) 0).
Proof. apply Actual_fetch_succeeds. Qed.

Lemma Actual_reads_live_instance_witness :
  outcome (Actual (Scenario.env Scenario.never_ready Scenario.both_networks)
             (Scenario.receiver "node" "i-9")) Scenario.world0
  = Done (Some Scenario.cluster0,
          Some (mkResource "demo-master" {[ "Name" := "demo-node" ]}
                  "i-123" None),
          None).
Proof.
  unfold outcome.
  rewrite (Actual_reads_live_instance
             (Scenario.env Scenario.never_ready Scenario.both_networks)
             (Scenario.receiver "node" "i-9") Scenario.world0
             (Scenario.pool "node") (Scenario.machine []));
    [reflexivity | reflexivity | discriminate | reflexivity].
Defined.

(** X7. [Actual] when the fetch answers with an error next to an instance
    that is not nil: the error is returned, with no cluster and no
    resource. *)
Theorem Actual_returns_fetch_error E r w pool inst e :
  ResourceGroup.ServerPool_ r = Some pool →
  ResourceGroup.Identifier r ≠ "" →
  fetch E w (ResourceGroup.Identifier r) 0 = (Some inst, Some e) →
  outcome (Actual E r) w = Done (None, None, Some e).
Proof. apply Actual_fetch_fails_with_instance. Qed.

(** X8. [Expected] is pure: it leaves the world as it was, so it issues no
    remote call and does not write the cluster. For a receiver with a
    server pool it returns the cluster it was given, a nil error and a
    resource with the name and identifier of the receiver, the tag [Name]
    of the pool and the pool itself; on a receiver without server pool it
    panics. *)
Theorem Expected_is_pure E r w :
  after (Expected E r) w = w
  ∧ (∀ pool, ResourceGroup.ServerPool_ r = Some pool →
       outcome (Expected E r) w
       = Done (Some (cluster w),
               Some (mkResource (ResourceGroup.Name r)
                       {[ "Name" := ServerPool.Name pool ]}
                       (ResourceGroup.Identifier r) (Some pool)),
               None))
  ∧ (ResourceGroup.ServerPool_ r = None →
     outcome (Expected E r) w = Panic nil_dereference).
Proof.
  unfold after, outcome, Expected. run.
  destruct (ResourceGroup.ServerPool_ r) as [pool|]; simpl.
  - split; [done|]. split; [by intros ? [= <-]|done].
  - split; [done|]. split; [done|done].
Qed.

Lemma Expected_is_pure_witness :
  outcome (Expected (Scenario.env Scenario.unreachable Scenario.both_networks)
             (Scenario.receiver "node" "")) Scenario.world0
  = Done (Some Scenario.cluster0, Some (Scenario.expected_of "node" ""), None).
Proof.
  rewrite (proj1 (proj2 (Expected_is_pure
             (Scenario.env Scenario.unreachable Scenario.both_networks)
             (Scenario.receiver "node" "") Scenario.world0))
             (Scenario.pool "node")); reflexivity.
Defined.

(** X9. The resources of [Actual] and [Expected] are never the same value:
    a resource that [Actual] returns has no server pool, a resource that
    [Expected] returns has one. A comparer that looks at every field thus
    finds every pair diverged, also right after a successful [Apply]. *)
Theorem Actual_Expected_never_equal E r r' w w' ca a erra ce e erre :
  outcome (Actual E r) w = Done (ca, Some a, erra) →
  outcome (Expected E r') w' = Done (ce, Some e, erre) →
  ResourceGroup.ServerPool_ a = None
  ∧ is_Some (ResourceGroup.ServerPool_ e)
  ∧ a ≠ e.
Proof.
  intros Ha He.
  assert (ResourceGroup.ServerPool_ a = None) as Hnone.
  { revert Ha. unfold outcome, Actual. run.
    destruct (ResourceGroup.ServerPool_ r) as [pool|]; simpl; [|done].
    rewrite ?Identifier_mkResource.
    destruct (String.eqb (ResourceGroup.Identifier r) ""); simpl.
    - by intros [= _ <- _].
    - unfold SdkInstancesGet. simpl.
      destruct (Instances_Get _ _ _) as [[inst|] [err|]]; simpl; try done.
      by intros [= _ <- _]. }
  assert (is_Some (ResourceGroup.ServerPool_ e)) as Hsome.
  { revert He. unfold outcome, Expected. run.
    destruct (ResourceGroup.ServerPool_ r') as [pool|]; simpl; [|done].
    intros [= _ <- _]. simpl. by eexists. }
  repeat split; try done.
  intros ->. rewrite Hnone in Hsome. by destruct Hsome.
Qed.

Lemma Actual_Expected_never_equal_witness :
  Scenario.actual_of "node" "" ≠ Scenario.expected_of "node" "".
Proof.
  apply (Actual_Expected_never_equal
           (Scenario.env Scenario.unreachable Scenario.both_networks)
           (Scenario.receiver "node" "") (Scenario.receiver "node" "")
           Scenario.world0 Scenario.world0
           (Some Scenario.cluster0) (Scenario.actual_of "node" "") None
           (Some Scenario.cluster0) (Scenario.expected_of "node" "") None);
    reflexivity.
Defined.

(** ** [Apply], phase by phase *)

Lemma Apply_phases E r actual expected :
  Apply E r actual expected
  = let '(isEqual, err) := IsEqual E actual expected in
    match err with
    | Some e => mret (None, None, Some e)
    | None =>
        if isEqual then
          immutable ← get_cluster;
          mret (Some immutable, Some expected, None)
        else
          pool ← deref (ResourceGroup.ServerPool_ r);
          early ← Apply_discover E r pool;
          match early with
          | Some e => mret (None, None, Some e)
          | None => Apply_provision E pool expected
          end
    end.
Proof. reflexivity. Qed.

(** [Apply] on a diverged pair, for a receiver with a server pool. *)
Lemma Apply_diverged E r actual expected pool w :
  IsEqual E actual expected = (false, None) →
  ResourceGroup.ServerPool_ r = Some pool →
  Apply E r actual expected w
  = match Apply_discover E r pool w with
    | (Done (Some e), w1) => (Done (None, None, Some e), w1)
    | (Done None, w1) => Apply_provision E pool expected w1
    | (Panic reason, w1) => (Panic reason, w1)
    end.
Proof.
  intros Hcmp Hpool. rewrite Apply_phases, Hcmp, Hpool.
  unfold mbind, M_bind, deref, mret, M_ret.
  by destruct (Apply_discover E r pool w) as [[[e|]|reason] w1].
Qed.

(** The last match of the listing wins, for each of the two names. *)
Lemma pick_networks_snoc nets n :
  pick_networks (nets ++ [n])
  = (if String.eqb (Network.Name n) NetworkName
     then Some n else fst (pick_networks nets),
     if String.eqb (Network.Name n) FabricNetwork
     then Some n else snd (pick_networks nets)).
Proof. unfold pick_networks. by rewrite fold_left_app. Qed.

(** X10. The two networks that [Apply] picks from the listing are, for
    each of the names [NetworkName] and [FabricNetwork], the last network
    of the listing with that name, and nil when the listing has none. *)
Theorem pick_networks_last_match nets :
  pick_networks nets
  = (last (filter (fun n => Network.Name n = NetworkName) nets),
     last (filter (fun n => Network.Name n = FabricNetwork) nets)).
Proof.
  induction nets as [|n nets IH] using rev_ind; [done|].
  rewrite pick_networks_snoc, IH, !filter_app. simpl.
  f_equal.
  - destruct (String.eqb_spec (Network.Name n) NetworkName) as [Heq|Hne].
    + rewrite filter_cons_True, filter_nil by done. by rewrite last_snoc.
    + rewrite filter_cons_False, filter_nil by done. by rewrite app_nil_r.
  - destruct (String.eqb_spec (Network.Name n) FabricNetwork) as [Heq|Hne].
    + rewrite filter_cons_True, filter_nil by done. by rewrite last_snoc.
    + rewrite filter_cons_False, filter_nil by done. by rewrite app_nil_r.
Qed.

(** The worlds a poll can leave: same cluster, trace extended by its
    calls. *)
Lemma getMasterIP_extend E identifier w :
  ∃ calls k,
    after (getMasterIP E identifier) w
    = {| fetches := fetches w + k; trace := trace w ++ calls;
         cluster := cluster w |}
    ∧ Forall (poll_call identifier) calls.
Proof.
  destruct (getMasterIP_cases E identifier w)
    as [(_ & Heq & _)|(k & _ & _ & _ & Heq & _)]; unfold after; rewrite Heq.
  - exists (rounds_trace identifier MasterIPAttempts), MasterIPAttempts.
    split; [done|]. apply poll_call_rounds_trace.
  - exists (rounds_trace identifier k
              ++ [CallInstancesGet {| GetInstanceInput.ID := identifier |}])%list,
           (S k).
    split; [done|].
    apply Forall_app. split; [apply poll_call_rounds_trace|].
    constructor; [by left|constructor].
Qed.

Lemma Apply_discover_other E r pool w :
  ServerPool.Type_ pool ≠ ServerPoolTypeNode →
  Apply_discover E r pool w = (Done None, w).
Proof.
  intros Htype. apply String.eqb_neq in Htype.
  unfold Apply_discover. by rewrite Htype.
Qed.

Lemma Apply_discover_node E r pool w :
  ServerPool.Type_ pool = ServerPoolTypeNode →
  Apply_discover E r pool w
  = match getMasterIP E (ResourceGroup.Identifier r) w with
    | (Done (_, Some e), w1) => (Done (Some e), w1)
    | (Done ([], None), w1) => (Panic index_out_of_range, w1)
    | (Done (ip :: _, None), w1) =>
        (Done None,
         {| fetches := fetches w1; trace := trace w1;
            cluster := with_master ip (cluster w1) |})
    | (Panic reason, w1) => (Panic reason, w1)
    end.
Proof.
  intros Htype. unfold Apply_discover. rewrite Htype. simpl. run.
  destruct (getMasterIP E (ResourceGroup.Identifier r) w)
    as [[[ips [e|]]|reason] w1]; simpl; try done.
  all: by destruct ips.
Qed.

(** [Apply_provision], path by path. *)
Lemma Apply_provision_paths E pool expected w :
  Apply_provision E pool expected w
  = let c1 := with_port (cluster w) in
    match BuildBootstrapScript E (ServerPool.BootstrapScripts pool) c1 with
    | (_, Some e) =>
        (Done (None, None, Some e),
         {| fetches := fetches w; trace := trace w; cluster := c1 |})
    | (script, None) =>
        match pick_networks (fst (Network_List (Sdk E))) with
        | (Some n1, Some n2) =>
            let input :=
              createInput_of pool (fst (Images_List (Sdk E) imageQuery))
                n1 n2 script in
            let w1 := extend w (provision_calls input) c1 in
            match Instances_Create (Sdk E) input with
            | (_, Some e) => (Done (None, None, Some e), w1)
            | (None, None) => (Panic nil_dereference, w1)
            | (Some created, None) =>
                match Apply_await E pool created w1 with
                | (Done (Some e), w2) => (Done (None, None, Some e), w2)
                | (Done None, w2) =>
                    match ResourceGroup.ServerPool_ expected with
                    | Some expectedPool =>
                        (Done (Some (cluster w2),
                               Some (mkResource (ServerPool.Name pool) ∅
                                       (Instance.ID created)
                                       (Some (ServerPool.set_Identifier
                                                (Instance.ID created)
                                                expectedPool))),
                               None),
                         w2)
                    | None => (Panic nil_dereference, w2)
                    end
                | (Panic reason, w2) => (Panic reason, w2)
                end
            end
        | _ =>
            (Panic nil_dereference,
             extend w [CallImagesList imageQuery; CallNetworkList] c1)
        end
    end.
Proof.
  unfold Apply_provision. run. fold (with_port (cluster w)).
  destruct (BuildBootstrapScript _ _ _) as [script [e|]]; simpl; [done|].
  fold imageQuery.
  destruct (Images_List (Sdk E) imageQuery) as [images ierr].
  destruct (Network_List (Sdk E)) as [nets nerr]. simpl.
  destruct (pick_networks nets) as [[n1|] [n2|]]; simpl;
    unfold extend; simpl; rewrite <- ?app_assoc; simpl; try done.
  unfold provision_calls.
  change {| CreateInstanceInput.Name := ServerPool.Name pool;
            CreateInstanceInput.Package := PackageName;
            CreateInstanceInput.Image :=
              Image.ID match images with i0 :: _ => i0 | [] => Image.zero end;
            CreateInstanceInput.Networks := [Network.Id n1; Network.Id n2];
            CreateInstanceInput.Metadata := {[ "user-script" := script ]};
            CreateInstanceInput.Tags := {[ "name" := ServerPool.Name pool ]};
            CreateInstanceInput.CNS_Services := [ServerPool.Name pool] |}
    with (createInput_of pool images n1 n2 script).
  destruct (Instances_Create (Sdk E) _) as [[created|] [e|]]; simpl;
    try done.
  destruct (Apply_await E pool created _) as [[[e|]|reason] w2]; simpl;
    try done.
  by destruct (ResourceGroup.ServerPool_ expected).
Qed.

(** [Apply_await], path by path. *)
Lemma Apply_await_other E pool created w :
  ServerPool.Type_ pool ≠ ServerPoolTypeMaster →
  Apply_await E pool created w = (Done None, w).
Proof.
  intros Htype. apply String.eqb_neq in Htype.
  unfold Apply_await. by rewrite Htype.
Qed.

Lemma Apply_await_master E pool created w :
  ServerPool.Type_ pool = ServerPoolTypeMaster →
  Apply_await E pool created w
  = match getMasterIP E (Instance.ID created) w with
    | (Done (_, Some e), w1) => (Done (Some e), w1)
    | (Done ([], None), w1) =>
        (Done (Some "Unable to find master IP addresses"), w1)
    | (Done (ip :: _, None), w1) =>
        (Done None,
         {| fetches := fetches w1; trace := trace w1;
            cluster := with_endpoint ip (cluster w1) |})
    | (Panic reason, w1) => (Panic reason, w1)
    end.
Proof.
  intros Htype. unfold Apply_await. rewrite Htype. simpl. run.
  destruct (getMasterIP E (Instance.ID created) w)
    as [[[ips [e|]]|reason] w1]; simpl; try done.
  all: by destruct ips.
Qed.

(** What the discovery phase adds to the trace, and what it keeps. *)
Lemma Apply_discover_frame E r pool w :
  ∃ p1,
    trace (snd (Apply_discover E r pool w)) = (trace w ++ p1)%list
    ∧ Forall (poll_call (ResourceGroup.Identifier r)) p1
    ∧ Cluster.Port (cluster (snd (Apply_discover E r pool w)))
      = Cluster.Port (cluster w).
Proof.
  destruct (String.eqb_spec (ServerPool.Type_ pool) ServerPoolTypeNode)
    as [Htype|Htype].
  - rewrite Apply_discover_node by done.
    destruct (getMasterIP_calls E (ResourceGroup.Identifier r) w)
      as (p1 & Htrace & Hcalls).
    pose proof (getMasterIP_cluster E (ResourceGroup.Identifier r) w) as Hc.
    unfold after in *. exists p1.
    destruct (getMasterIP E (ResourceGroup.Identifier r) w)
      as [[[ips [e|]]|reason] w1]; simpl in *; try by rewrite Hc.
    all: destruct ips; unfold with_master, Cluster.Port; simpl;
      by rewrite Hc.
  - rewrite Apply_discover_other by done. exists []. simpl.
    by rewrite app_nil_r.
Qed.

(** What the wait for the master adds to the trace. *)
Lemma Apply_await_frame E pool created w :
  ∃ p2,
    trace (snd (Apply_await E pool created w)) = (trace w ++ p2)%list
    ∧ Forall (poll_call (Instance.ID created)) p2.
Proof.
  destruct (String.eqb_spec (ServerPool.Type_ pool) ServerPoolTypeMaster)
    as [Htype|Htype].
  - rewrite Apply_await_master by done.
    destruct (getMasterIP_calls E (Instance.ID created) w)
      as (p2 & Htrace & Hcalls).
    unfold after in *. exists p2.
    destruct (getMasterIP E (Instance.ID created) w)
      as [[[ips [e|]]|reason] w1]; simpl in *; try done.
    all: by destruct ips.
  - rewrite Apply_await_other by done. exists []. simpl.
    by rewrite app_nil_r.
Qed.

(** X11. A node whose poll for the master meets a failing fetch: [Apply]
    returns the error of that fetch, with no cluster and no resource,
    right after it. Nothing has been written to the cluster, and no image
    listing, network listing or create call has been issued. *)
Theorem Apply_node_poll_error E r actual expected w pool k e :
  IsEqual E actual expected = (false, None) →
  ResourceGroup.ServerPool_ r = Some pool →
  ServerPool.Type_ pool = ServerPoolTypeNode →
  k < MasterIPAttempts →
  (∀ j, j < k → pending (fetch E w (ResourceGroup.Identifier r) j)) →
  failed e (fetch E w (ResourceGroup.Identifier r) k) →
  Apply E r actual expected w
  = (Done (None, None, Some e),
     last_fetch w (ResourceGroup.Identifier r) k).
Proof.
  intros Hcmp Hpool Htype Hk Hpre Hfail.
  rewrite (Apply_diverged E r actual expected pool) by done.
  rewrite Apply_discover_node by done.
  rewrite (getMasterIP_stops E _ w k) by
    (try done; intros Hp; by apply (pending_not_failed _ e Hp)).
  unfold failed in Hfail.
  by destruct (fetch E w (ResourceGroup.Identifier r) k) as [[inst|] [e'|]];
    simplify_eq/=.
Qed.

Lemma Apply_node_poll_error_witness :
  let E := Scenario.env Scenario.fails_at_second Scenario.both_networks in
  Apply E (Scenario.receiver "node" "i-123") (Scenario.actual_of "node" "")
    (Scenario.expected_of "node" "") Scenario.world0
  = (Done (None, None, Some "unable to get machine"),
     last_fetch Scenario.world0 "i-123" 1).
Proof.
  apply (Apply_node_poll_error
           (Scenario.env Scenario.fails_at_second Scenario.both_networks)
           (Scenario.receiver "node" "i-123") (Scenario.actual_of "node" "")
           (Scenario.expected_of "node" "") Scenario.world0
           (Scenario.pool "node") 1 "unable to get machine").
  - reflexivity.
  - reflexivity.
  - reflexivity.
  - unfold MasterIPAttempts. lia.
  - intros [|j] Hj; [reflexivity | lia].
  - reflexivity.
Defined.

(** X12. When the bootstrap script cannot be rendered, [Apply] (for a role
    other than node) returns the error of the renderer without any remote
    call; the key [INJECTEDPORT] that it wrote before rendering stays in
    the cluster. *)
Theorem Apply_render_error E r actual expected w pool script e :
  IsEqual E actual expected = (false, None) →
  ResourceGroup.ServerPool_ r = Some pool →
  ServerPool.Type_ pool ≠ ServerPoolTypeNode →
  BuildBootstrapScript E (ServerPool.BootstrapScripts pool)
    (with_port (cluster w)) = (script, Some e) →
  Apply E r actual expected w
  = (Done (None, None, Some e),
     {| fetches := fetches w; trace := trace w;
        cluster := with_port (cluster w) |})
  ∧ Cluster.Item "INJECTEDPORT" (with_port (cluster w))
    = Some (Cluster.Port (cluster w)).
Proof.
  intros Hcmp Hpool Htype Hscript. split.
  - rewrite (Apply_diverged E r actual expected pool) by done.
    rewrite Apply_discover_other by done.
    rewrite Apply_provision_paths. simpl. by rewrite Hscript.
  - unfold Cluster.Item, with_port. simpl. apply lookup_insert_eq.
Qed.

Lemma Apply_render_error_witness :
  let E := Scenario.faulty_env (Some "template not found") None in
  let run := Apply E (Scenario.receiver "master" "")
               (Scenario.actual_of "master" "")
               (Scenario.expected_of "master" "") Scenario.world0 in
  fst run = Done (None, None, Some "template not found")
  ∧ trace (snd run) = []
  ∧ Cluster.Item "INJECTEDPORT" (cluster (snd run)) = Some "443".
Proof.
  destruct (Apply_render_error
              (Scenario.faulty_env (Some "template not found") None)
              (Scenario.receiver "master" "") (Scenario.actual_of "master" "")
              (Scenario.expected_of "master" "") Scenario.world0
              (Scenario.pool "master")
              "bootstrap/triton_k8s_ubuntu_16.04.sh" "template not found")
    as [Heq Hport]; [reflexivity | reflexivity | discriminate | reflexivity |].
  cbv zeta. rewrite Heq.
  split; [reflexivity|]. split; [reflexivity|]. exact Hport.
Defined.

(** X13. When the create call fails, [Apply] (for a role other than node)
    returns its error with no cluster and no resource. The remote has seen
    the image listing, the network listing and the create call, in this
    order, and no fetch: a master is not polled for. The cluster keeps the
    key [INJECTEDPORT]. *)
Theorem Apply_create_error E r actual expected w pool script n1 n2 created e :
  IsEqual E actual expected = (false, None) →
  ResourceGroup.ServerPool_ r = Some pool →
  ServerPool.Type_ pool ≠ ServerPoolTypeNode →
  BuildBootstrapScript E (ServerPool.BootstrapScripts pool)
    (with_port (cluster w)) = (script, None) →
  pick_networks (fst (Network_List (Sdk E))) = (Some n1, Some n2) →
  let input :=
    createInput_of pool (fst (Images_List (Sdk E) imageQuery)) n1 n2 script in
  Instances_Create (Sdk E) input = (created, Some e) →
  Apply E r actual expected w
  = (Done (None, None, Some e),
     extend w (provision_calls input) (with_port (cluster w))).
Proof.
  intros Hcmp Hpool Htype Hscript Hnets input Hcreate.
  rewrite (Apply_diverged E r actual expected pool) by done.
  rewrite Apply_discover_other by done.
  rewrite Apply_provision_paths. simpl. rewrite Hscript, Hnets.
  fold input. rewrite Hcreate. by destruct created.
Qed.

Lemma Apply_create_error_witness :
  let E := Scenario.faulty_env None (Some "quota exceeded") in
  let run := Apply E (Scenario.receiver "master" "")
               (Scenario.actual_of "master" "")
               (Scenario.expected_of "master" "") Scenario.world0 in
  fst run = Done (None, None, Some "quota exceeded")
  ∧ fetches (snd run) = 0
  ∧ length (trace (snd run)) = 3.
Proof.
  cbv zeta.
  rewrite (Apply_create_error
             (Scenario.faulty_env None (Some "quota exceeded"))
             (Scenario.receiver "master" "") (Scenario.actual_of "master" "")
             (Scenario.expected_of "master" "") Scenario.world0
             (Scenario.pool "master")
             "bootstrap/triton_k8s_ubuntu_16.04.sh"
             {| Network.Id := "net-public"; Network.Name := NetworkName |}
             {| Network.Id := "net-fabric"; Network.Name := FabricNetwork |}
             None "quota exceeded");
    [| reflexivity | reflexivity | discriminate | reflexivity | reflexivity
     | reflexivity].
  repeat split.
Defined.

(** X14. A master whose create call succeeds and whose instance reports
    the addresses [ip :: rest] at fetch [k] of the poll on the id of the
    created instance: [Apply] returns a nil error, the cluster with [ip]
    as endpoint (and the key [INJECTEDPORT]), and a resource named after
    the pool that carries the id of the created instance, also in its
    server pool. The remote has seen the two listings, the create call and
    then [k + 1] fetches on the new id. *)
Theorem Apply_master_endpoint E r actual expected w pool expectedPool
    script n1 n2 created k ip rest :
  IsEqual E actual expected = (false, None) →
  ResourceGroup.ServerPool_ r = Some pool →
  ResourceGroup.ServerPool_ expected = Some expectedPool →
  ServerPool.Type_ pool = ServerPoolTypeMaster →
  BuildBootstrapScript E (ServerPool.BootstrapScripts pool)
    (with_port (cluster w)) = (script, None) →
  pick_networks (fst (Network_List (Sdk E))) = (Some n1, Some n2) →
  let input :=
    createInput_of pool (fst (Images_List (Sdk E) imageQuery)) n1 n2 script in
  Instances_Create (Sdk E) input = (Some created, None) →
  k < MasterIPAttempts →
  (∀ j, j < k → pending (fetch E w (Instance.ID created) j)) →
  found (ip :: rest) (fetch E w (Instance.ID created) k) →
  let c' := with_endpoint ip (with_port (cluster w)) in
  Apply E r actual expected w
  = (Done (Some c',
           Some (mkResource (ServerPool.Name pool) ∅ (Instance.ID created)
                   (Some (ServerPool.set_Identifier (Instance.ID created)
                            expectedPool))),
           None),
     {| fetches := fetches w + S k;
        trace := trace w ++ provision_calls input
                   ++ rounds_trace (Instance.ID created) k
                   ++ [CallInstancesGet
                         {| GetInstanceInput.ID := Instance.ID created |}];
        cluster := c' |})
  ∧ Cluster.Endpoint c' = ip.
Proof.
  intros Hcmp Hpool Hexp Htype Hscript Hnets input Hcreate Hk Hpre Hfound c'.
  split; [|done].
  rewrite (Apply_diverged E r actual expected pool) by done.
  rewrite Apply_discover_other by (rewrite Htype; discriminate).
  rewrite Apply_provision_paths. simpl. rewrite Hscript, Hnets.
  fold input. rewrite Hcreate.
  rewrite Apply_await_master by done.
  rewrite (getMasterIP_found E (Instance.ID created)
             (extend w (provision_calls input) (with_port (cluster w)))
             k (ip :: rest) Hk Hpre Hfound).
  rewrite Hexp. unfold last_fetch, extend. simpl.
  by rewrite <- !app_assoc.
Qed.

Lemma Apply_master_endpoint_witness :
  let E := Scenario.env Scenario.ready_at_third Scenario.both_networks in
  let run := Apply E (Scenario.receiver "master" "")
               (Scenario.actual_of "master" "")
               (Scenario.expected_of "master" "") Scenario.world0 in
  (∃ c res, fst run = Done (Some c, Some res, None)
            ∧ Cluster.Endpoint c = "10.0.0.5"
            ∧ ResourceGroup.Identifier res = "i-123")
  ∧ fetches (snd run) = 3.
Proof.
  cbv zeta.
  destruct (Apply_master_endpoint
              (Scenario.env Scenario.ready_at_third Scenario.both_networks)
              (Scenario.receiver "master" "") (Scenario.actual_of "master" "")
              (Scenario.expected_of "master" "") Scenario.world0
              (Scenario.pool "master") (Scenario.pool "master")
              "bootstrap/triton_k8s_ubuntu_16.04.sh"
              {| Network.Id := "net-public"; Network.Name := NetworkName |}
              {| Network.Id := "net-fabric"; Network.Name := FabricNetwork |}
              {| Instance.ID := "i-123"; Instance.Name := "demo-master";
                 Instance.IPs := [] |}
              2 "10.0.0.5" []) as [Heq Hend];
    [ reflexivity | reflexivity | reflexivity | reflexivity | reflexivity
    | reflexivity | reflexivity | unfold MasterIPAttempts; lia
    | intros [|[|j]] Hj; [reflexivity | reflexivity | lia]
    | split; [reflexivity | discriminate] | ].
  rewrite Heq. split; [|reflexivity].
  eexists _, _. split; [reflexivity|]. split; [exact Hend | reflexivity].
Defined.

(** X15. What a successful [Apply] on a diverged pair has done, whatever
    the role: the receiver and the expected resource have a server pool,
    both networks were found, the script was rendered (from a cluster that
    holds the key [INJECTEDPORT]), and exactly one create call was issued,
    with the name of the pool, the package [PackageName], the id of the
    first listed image (empty when none is listed), the ids of the two
    networks, the script as [user-script] metadata. The resource returned
    is named after the pool and carries the id of the created instance,
    also in its server pool. *)
Theorem Apply_success_created_once E r actual expected w c res :
  IsEqual E actual expected = (false, None) →
  outcome (Apply E r actual expected) w = Done (c, Some res, None) →
  ∃ pool expectedPool n1 n2 cl script created,
    ResourceGroup.ServerPool_ r = Some pool
    ∧ ResourceGroup.ServerPool_ expected = Some expectedPool
    ∧ pick_networks (fst (Network_List (Sdk E))) = (Some n1, Some n2)
    ∧ BuildBootstrapScript E (ServerPool.BootstrapScripts pool) cl
      = (script, None)
    ∧ Cluster.Item "INJECTEDPORT" cl = Some (Cluster.Port (cluster w))
    ∧ Instances_Create (Sdk E)
        (createInput_of pool (fst (Images_List (Sdk E) imageQuery))
           n1 n2 script)
      = (Some created, None)
    ∧ creates (trace (after (Apply E r actual expected) w))
      = (creates (trace w)
           ++ [createInput_of pool (fst (Images_List (Sdk E) imageQuery))
                 n1 n2 script])%list
    ∧ res = mkResource (ServerPool.Name pool) ∅ (Instance.ID created)
              (Some (ServerPool.set_Identifier (Instance.ID created)
                       expectedPool)).
Proof.
  intros Hcmp. unfold outcome, after.
  destruct (ResourceGroup.ServerPool_ r) as [pool|] eqn:Hpool.
  2: { rewrite Apply_phases, Hcmp, Hpool. done. }
  rewrite (Apply_diverged E r actual expected pool) by done.
  destruct (Apply_discover_frame E r pool w) as (p1 & Ht1 & Hp1 & Hport1).
  destruct (Apply_discover E r pool w) as [[[e|]|reason] w1]; simpl in *;
    [done| |done].
  rewrite Apply_provision_paths. simpl.
  destruct (BuildBootstrapScript E _ (with_port (cluster w1)))
    as [script [e|]] eqn:Hscript; [done|].
  destruct (pick_networks _) as [[n1|] [n2|]] eqn:Hnets; try done.
  destruct (Instances_Create _ _) as [[created|] [e|]] eqn:Hcreate;
    try done.
  match goal with
  | |- context [Apply_await E pool created ?w2] =>
      destruct (Apply_await_frame E pool created w2) as (p2 & Ht2 & Hp2);
      destruct (Apply_await E pool created w2) as [[[e|]|reason] w3]
  end; simpl in *; try done.
  destruct (ResourceGroup.ServerPool_ expected) as [expectedPool|]; [|done].
  simpl. intros [= <- <-].
  exists pool, expectedPool, n1, n2, (with_port (cluster w1)), script, created.
  repeat split; try done.
  - unfold Cluster.Item, with_port. simpl.
    rewrite lookup_insert_eq. by rewrite Hport1.
  - rewrite Ht2, Ht1. unfold provision_calls.
    rewrite !creates_app. simpl.
    assert (∀ id p, Forall (poll_call id) p → creates p = []) as Hnone.
    { intros id p Hp. induction Hp as [|x p [->| ->] _ IH]; done. }
    rewrite (Hnone _ _ Hp1), (Hnone _ _ Hp2). by rewrite !app_nil_r.
Qed.

Lemma Apply_success_created_once_witness :
  let E := Scenario.env Scenario.ready_at_third Scenario.both_networks in
  ∃ input,
    creates (trace (after (Apply E (Scenario.receiver "node" "i-1")
                             (Scenario.actual_of "node" "")
                             (Scenario.expected_of "node" ""))
                      Scenario.world0)) = [input]
    ∧ CreateInstanceInput.Networks input = ["net-public"; "net-fabric"]
    ∧ CreateInstanceInput.Image input = "img-1".
Proof.
  cbv zeta.
  destruct (Apply_success_created_once
              (Scenario.env Scenario.ready_at_third Scenario.both_networks)
              (Scenario.receiver "node" "i-1") (Scenario.actual_of "node" "")
              (Scenario.expected_of "node" "") Scenario.world0
              (Some (with_port (with_master "10.0.0.5" Scenario.cluster0)))
              (mkResource "demo-node" ∅ "i-123"
                 (Some (ServerPool.set_Identifier "i-123"
                          (Scenario.pool "node")))))
    as (pool & expectedPool & n1 & n2 & cl & script & created
        & Hpool & Hexp & Hnets & Hscript & _ & Hcreate & Hcreates & _);
    [reflexivity | reflexivity |].
  injection Hpool as <-. injection Hnets as <- <-.
  injection Hscript as <-.
  eexists. split; [exact Hcreates|]. split; reflexivity.
Defined.

(** X16. The order of the remote calls of [Apply], along every path and
    for every input. The calls it adds to the trace are: first the fetches
    and sleeps of the poll on the identifier of the receiver (a node
    only); then nothing, or the image listing and the network listing, or
    these two followed by one create call; then, only after a create call
    that returned an instance, the fetches and sleeps of the poll on the
    id of that instance. So the listings always precede the create call,
    the create call precedes the poll for the new instance, and [Apply]
    never issues a second create call. *)
Theorem Apply_call_order E r actual expected w :
  ∃ p1 mid p2,
    trace (after (Apply E r actual expected) w)
    = (trace w ++ p1 ++ mid ++ p2)%list
    ∧ Forall (poll_call (ResourceGroup.Identifier r)) p1
    ∧ ((mid = [] ∧ p2 = [])
       ∨ (mid = [CallImagesList imageQuery; CallNetworkList] ∧ p2 = [])
       ∨ (∃ input,
            mid = provision_calls input
            ∧ (p2 = []
               ∨ ∃ created,
                   Instances_Create (Sdk E) input = (Some created, None)
                   ∧ Forall (poll_call (Instance.ID created)) p2))).
Proof.
  unfold after. rewrite Apply_phases.
  assert (∀ w0 : World, ∃ p1 mid p2 : list Call,
            trace w0 = (trace w0 ++ p1 ++ mid ++ p2)%list
            ∧ Forall (poll_call (ResourceGroup.Identifier r)) p1
            ∧ ((mid = [] ∧ p2 = [])
               ∨ (mid = [CallImagesList imageQuery; CallNetworkList]
                  ∧ p2 = [])
               ∨ (∃ input,
                    mid = provision_calls input
                    ∧ (p2 = []
                       ∨ ∃ created,
                           Instances_Create (Sdk E) input
                           = (Some created, None)
                           ∧ Forall (poll_call (Instance.ID created)) p2))))
    as Hidle.
  { intros w0. exists [], [], []. rewrite app_nil_r.
    split; [done|]. split; [constructor|]. by left. }
  destruct (IsEqual E actual expected) as [[|] [e|]]; simpl; try apply Hidle.
  unfold mbind, M_bind, deref.
  destruct (ResourceGroup.ServerPool_ r) as [pool|]; simpl; [|apply Hidle].
  clear Hidle.
  destruct (Apply_discover_frame E r pool w) as (p1 & Ht1 & Hp1 & _).
  destruct (Apply_discover E r pool w) as [[[e|]|reason] w1]; simpl in *.
  - exists p1, [], []. rewrite !app_nil_r.
    split; [done|]. split; [done|]. by left.
  - rewrite Apply_provision_paths. simpl.
    destruct (BuildBootstrapScript E _ _) as [script [e|]]; simpl.
    { exists p1, [], []. rewrite !app_nil_r.
    split; [done|]. split; [done|]. by left. }
    assert (∀ mid p2, (trace w1 ++ mid ++ p2)%list
                      = (trace w ++ p1 ++ mid ++ p2)%list) as Hassoc.
    { intros mid p2. by rewrite Ht1, <- app_assoc. }
    destruct (pick_networks _) as [[n1|] [n2|]]; simpl;
      try (exists p1, [CallImagesList imageQuery; CallNetworkList], [];
           rewrite <- Hassoc, app_nil_r;
           (split; [done|]); (split; [done|]); right; by left).
    match goal with
    | |- context [Instances_Create (Sdk E) ?i] => set (input := i)
    end.
    destruct (Instances_Create (Sdk E) input) as [[created|] [e|]] eqn:Hcreate;
      simpl;
      try (exists p1, (provision_calls input), [];
           rewrite <- Hassoc, app_nil_r; split; [done|]; split; [done|];
           right; right; exists input; split; [done|]; by left).
    match goal with
    | |- context [Apply_await E pool created ?w2] =>
        destruct (Apply_await_frame E pool created w2) as (p2 & Ht2 & Hp2);
        destruct (Apply_await E pool created w2) as [[[e|]|reason] w3]
    end; simpl in *;
      try destruct (ResourceGroup.ServerPool_ expected); simpl;
      exists p1, (provision_calls input), p2;
      rewrite Ht2, <- Hassoc, <- app_assoc; (split; [done|]); (split; [done|]);
      right; right; exists input; (split; [done|]); right; by exists created.
  - exists p1, [], []. rewrite !app_nil_r.
    split; [done|]. split; [done|]. by left.
Qed.

Lemma Actual_returns_fetch_error_witness :
  outcome (Actual (Scenario.env Scenario.times_out Scenario.both_networks)
             (Scenario.receiver "node" "i-9")) Scenario.world0
  = Done (None, None, Some "request timed out").
Proof.
  apply (Actual_returns_fetch_error
           (Scenario.env Scenario.times_out Scenario.both_networks)
           (Scenario.receiver "node" "i-9") Scenario.world0
           (Scenario.pool "node") (Scenario.machine []) "request timed out");
    [reflexivity | discriminate | reflexivity].
Defined.

(** ** [Delete] and the rendering of the cluster *)

(** X17. [Delete] on a resource with an identifier discards the
    configuration of the cluster, whatever it held: the cluster it leaves
    has the name of the receiver, an empty endpoint, an empty port, an
    empty group identifier and an empty injection map, so that what an
    earlier [Apply] injected is gone. A second [Delete] changes
    nothing. *)
Theorem Delete_discards_configuration E r actual w :
  ResourceGroup.Identifier actual ≠ "" →
  let w' := after (Delete E r actual) w in
  Cluster.Name (cluster w') = ResourceGroup.Name r
  ∧ Cluster.Endpoint (cluster w') = ""
  ∧ Cluster.Port (cluster w') = ""
  ∧ ProviderConfig.GroupIdentifier (Cluster.Config (cluster w')) = ""
  ∧ (∀ k, Cluster.Item k (cluster w') = None)
  ∧ Delete E r actual w' = (outcome (Delete E r actual) w, w').
Proof.
  intros Hid. apply String.eqb_neq in Hid.
  unfold after, outcome, Delete. rewrite Hid. simpl.
  repeat split.
Qed.

Lemma Delete_discards_configuration_witness :
  let E := Scenario.env Scenario.ready_at_third Scenario.both_networks in
  let applied :=
    after (Apply E (Scenario.receiver "node" "i-123")
             (Scenario.actual_of "node" "") (Scenario.expected_of "node" ""))
      Scenario.world0 in
  let deleted :=
    after (Delete E (Scenario.receiver "node" "i-123")
             (Scenario.actual_of "node" "i-123")) applied in
  Cluster.Item "INJECTEDPORT" (cluster applied) = Some "443"
  ∧ Cluster.Item "INJECTEDPORT" (cluster deleted) = None
  ∧ Cluster.Port (cluster deleted) = "".
Proof.
  cbv zeta. split; [reflexivity|].
  destruct (Delete_discards_configuration
              (Scenario.env Scenario.ready_at_third Scenario.both_networks)
              (Scenario.receiver "node" "i-123")
              (Scenario.actual_of "node" "i-123")
              (after (Apply
                        (Scenario.env Scenario.ready_at_third
                           Scenario.both_networks)
                        (Scenario.receiver "node" "i-123")
                        (Scenario.actual_of "node" "")
                        (Scenario.expected_of "node" "")) Scenario.world0))
    as (_ & _ & Hport & _ & Hitems & _); [discriminate|].
  split; [apply Hitems | exact Hport].
Defined.

(** ** [NewSdk]: the configuration of the clients and the key material *)

Section NewSdkMore.
Import tritonSDK.
Variable H : Host.

Local Abbreviation keyMaterial := (Getenv H "TRITON_KEY_MATERIAL").
Local Abbreviation userName := (Getenv H "TRITON_USER").

(** X18. An [Sdk] that [NewSdk] returns holds the two clients built from
    one and the same configuration: the fixed URL of us-east-1, the fixed
    account, the user of [TRITON_USER], and the one signer made from the
    hard-coded key id. *)
Theorem NewSdk_clients_share_config sdk e :
  NewSdk H = Return (Some sdk, e) →
  ∃ signer,
    newSigner H keyMaterial userName = Return signer
    ∧ let config :=
        {| TritonURL := "https://us-east-1.api.joyent.com";
           AccountName := "niravpatel27";
           Username := userName;
           Signers := [signer] |} in
      compute_NewClient H config = (Compute sdk, None)
      ∧ network_NewClient H config = (Network sdk, None).
Proof.
  rewrite NewSdk_unfold. unfold mbind, Exec_bind.
  destruct (newSigner H keyMaterial userName) as [signer|msg]; [|done].
  simpl. unfold clientConfig, accountName.
  destruct (compute_NewClient H _) as [cc [err|]] eqn:Hcc; [done|].
  destruct (network_NewClient H _) as [nc [err|]] eqn:Hnc; [done|].
  intros [= <- _]. exists signer. simpl. by rewrite Hcc, Hnc.
Qed.

(** X19. The key bytes that reach [NewPrivateKeySigner] when
    [TRITON_KEY_MATERIAL] is set. If [os.Stat] fails on its value, the
    value itself is the key; if it names a file that can be read and that
    holds a PEM block which is not encrypted, the key is the content of
    the file as read (not the decoded block). In both cases the signer is
    made with the hard-coded key id and account and the user of
    [TRITON_USER], and the ssh agent is not asked. *)
Theorem NewSdk_key_bytes :
  keyMaterial ≠ "" →
  (∀ err, Stat H keyMaterial = Some err →
     newSigner H keyMaterial userName
     = keySigner H keyMaterial userName
     ∧ readKeyBytes H keyMaterial
       = Return (list_byte_of_string keyMaterial))
  ∧ (∀ content block,
       Stat H keyMaterial = None →
       ReadFile H keyMaterial = (content, None) →
       pem_Decode H content = Some block →
       Headers block !! "Proc-Type" ≠ Some "4,ENCRYPTED" →
       readKeyBytes H keyMaterial = Return content)
  ∧ (∀ keyBytes signer,
       readKeyBytes H keyMaterial = Return keyBytes →
       NewPrivateKeySigner H
         {| Key_KeyID := "f7:75:b3:53:fe:d5:5d:26:13:2a:7f:9b:6b:2e:94:94";
            Key_PrivateKeyMaterial := keyBytes;
            Key_AccountName := "niravpatel27";
            Key_Username := userName |} = (signer, None) →
       newSigner H keyMaterial userName = Return signer).
Proof.
  intros Hkm. apply String.eqb_neq in Hkm.
  split; [|split].
  - intros err Hstat. unfold newSigner, readKeyBytes.
    by rewrite Hkm, Hstat.
  - intros content block Hstat Hread Hpem Hproc.
    unfold readKeyBytes. rewrite Hstat, Hread, Hpem.
    destruct (String.eqb_spec (default "" (Headers block !! "Proc-Type"))
                "4,ENCRYPTED") as [Heq|Hne]; [|done].
    destruct (Headers block !! "Proc-Type") as [v|]; simpl in Heq.
    + by subst v.
    + discriminate.
  - intros keyBytes signer Hread Hsigner.
    unfold newSigner, keySigner. rewrite Hkm, Hread. simpl.
    unfold keyID, accountName. by rewrite Hsigner.
Qed.

(** X20. The key files that [NewSdk] refuses, by ending the process: a
    file named by [TRITON_KEY_MATERIAL] that cannot be read, one without
    PEM block, and one whose block has the header [Proc-Type] set to
    ["4,ENCRYPTED"]. *)
Theorem NewSdk_refuses_key_file :
  keyMaterial ≠ "" →
  Stat H keyMaterial = None →
  (∀ content e,
     ReadFile H keyMaterial = (content, Some e) →
     NewSdk H = Fatal ("Error reading key material from " ++ keyMaterial
                         ++ ": " ++ e))
  ∧ (∀ content,
       ReadFile H keyMaterial = (content, None) →
       pem_Decode H content = None →
       NewSdk H = Fatal ("Failed to read key material '" ++ keyMaterial
                           ++ "': no key found"))
  ∧ (∀ content block,
       ReadFile H keyMaterial = (content, None) →
       pem_Decode H content = Some block →
       Headers block !! "Proc-Type" = Some "4,ENCRYPTED" →
       NewSdk H = Fatal ("Failed to read key '" ++ keyMaterial
                           ++ "': password protected keys are" ++ newline
                           ++ "not currently supported. Please decrypt the key prior to use.")).
Proof.
  intros Hkm Hstat. apply String.eqb_neq in Hkm.
  split; [|split].
  - intros content e Hread. rewrite NewSdk_unfold.
    unfold newSigner, keySigner, readKeyBytes.
    by rewrite Hkm, Hstat, Hread.
  - intros content Hread Hpem. rewrite NewSdk_unfold.
    unfold newSigner, keySigner, readKeyBytes.
    by rewrite Hkm, Hstat, Hread, Hpem.
  - intros content block Hread Hpem Hproc. rewrite NewSdk_unfold.
    unfold newSigner, keySigner, readKeyBytes.
    by rewrite Hkm, Hstat, Hread, Hpem, Hproc.
Qed.

End NewSdkMore.

Lemma NewSdk_clients_share_config_witness :
  ∃ sdk signer,
    tritonSDK.NewSdk (Scenario.key_host "inline-key" None None)
    = tritonSDK.Return (Some sdk, None)
    ∧ tritonSDK.Compute sdk
      = Some {| tritonSDK.compute_config :=
                  {| tritonSDK.TritonURL := "https://us-east-1.api.joyent.com";
                     tritonSDK.AccountName := "niravpatel27";
                     tritonSDK.Username := "ops";
                     tritonSDK.Signers := [signer] |} |}.
Proof.
  destruct (tritonSDK.NewSdk (Scenario.key_host "inline-key" None None))
    as [[[sdk|] e]|msg] eqn:Hrun; [|discriminate Hrun..].
  destruct (NewSdk_clients_share_config
              (Scenario.key_host "inline-key" None None) sdk e Hrun)
    as (signer & _ & Hcc & _).
  exists sdk, signer. split.
  - vm_compute in Hrun. injection Hrun as <- <-. reflexivity.
  - simpl in Hcc. by injection Hcc as <-.
Defined.

Lemma NewSdk_key_bytes_witness :
  tritonSDK.readKeyBytes (Scenario.key_host "inline-key" None None)
    "inline-key"
  = tritonSDK.Return (list_byte_of_string "inline-key").
Proof.
  apply (proj1 (NewSdk_key_bytes (Scenario.key_host "inline-key" None None)
                  ltac:(discriminate))
           "no such file or directory").
  reflexivity.
Defined.

Lemma NewSdk_refuses_key_file_witness :
  tritonSDK.NewSdk
    (Scenario.key_host "/home/ops/.ssh/id_rsa" (Some [])
       (Some {| tritonSDK.Headers := {[ "Proc-Type" := "4,ENCRYPTED" ]} |}))
  = tritonSDK.Fatal
      ("Failed to read key '/home/ops/.ssh/id_rsa': password protected keys are"
         ++ tritonSDK.newline
         ++ "not currently supported. Please decrypt the key prior to use.").
Proof.
  apply (proj2 (proj2 (NewSdk_refuses_key_file
           (Scenario.key_host "/home/ops/.ssh/id_rsa" (Some [])
              (Some {| tritonSDK.Headers :=
                         {[ "Proc-Type" := "4,ENCRYPTED" ]} |}))
           ltac:(discriminate) eq_refl))
           []
           {| tritonSDK.Headers := {[ "Proc-Type" := "4,ENCRYPTED" ]} |});
    reflexivity.
Defined.

(** ** [Apply]: the create call *)

Lemma creates_poll_calls identifier p :
  Forall (poll_call identifier) p → creates p = [].
Proof. intros Hp. induction Hp as [|x p [->| ->] _ IH]; done. Qed.

(** X21. The create calls of [Apply], along every path: a run of [Apply]
    issues no create call, or exactly one, and this one carries the name
    of the server pool of the receiver (as name, tag and CNS service), the
    package [PackageName], the id of the first image of the listing (the
    empty id when the listing is empty or failed), the ids of the two
    networks picked from the listing, and the rendered script. *)
Theorem Apply_create_input E r actual expected w :
  let after_apply := after (Apply E r actual expected) w in
  creates (trace after_apply) = creates (trace w)
  ∨ ∃ pool n1 n2 cl script,
      ResourceGroup.ServerPool_ r = Some pool
      ∧ pick_networks (fst (Network_List (Sdk E))) = (Some n1, Some n2)
      ∧ BuildBootstrapScript E (ServerPool.BootstrapScripts pool) cl
        = (script, None)
      ∧ creates (trace after_apply)
        = (creates (trace w)
             ++ [createInput_of pool (fst (Images_List (Sdk E) imageQuery))
                   n1 n2 script])%list.
Proof.
  unfold after. rewrite Apply_phases.
  destruct (IsEqual E actual expected) as [[|] [e|]]; simpl; try by left.
  unfold mbind, M_bind, deref.
  destruct (ResourceGroup.ServerPool_ r) as [pool|] eqn:Hpool; simpl;
    [|by left].
  destruct (Apply_discover_frame E r pool w) as (p1 & Ht1 & Hp1 & _).
  assert (creates (trace w ++ p1) = creates (trace w)) as Hc1.
  { by rewrite creates_app, (creates_poll_calls _ _ Hp1), app_nil_r. }
  destruct (Apply_discover E r pool w) as [[[e|]|reason] w1]; simpl in *;
    try (left; by rewrite Ht1).
  rewrite Apply_provision_paths. simpl.
  destruct (BuildBootstrapScript E _ _) as [script [e|]] eqn:Hscript; simpl;
    [left; by rewrite Ht1|].
  destruct (pick_networks _) as [[n1|] [n2|]] eqn:Hnets; simpl;
    try (left; by rewrite creates_app, Ht1, Hc1, app_nil_r).
  right. exists pool, n1, n2, (with_port (cluster w1)), script.
  split; [done|]. split; [done|]. split; [done|].
  match goal with
  | |- context [Instances_Create (Sdk E) ?i] => set (input := i)
  end.
  destruct (Instances_Create (Sdk E) input) as [[created|] [e|]]; simpl;
    try (by rewrite creates_app, Ht1, Hc1).
  match goal with
  | |- context [Apply_await E pool created ?w2] =>
      destruct (Apply_await_frame E pool created w2) as (p2 & Ht2 & Hp2);
      destruct (Apply_await E pool created w2) as [[[e|]|reason] w3]
  end; simpl in *;
    try destruct (ResourceGroup.ServerPool_ expected); simpl;
    rewrite Ht2, !creates_app, Ht1, Hc1, (creates_poll_calls _ _ Hp2);
    by rewrite app_nil_r.
Qed.

(** X22. A master whose create call succeeds and whose poll then meets a
    failing fetch: [Apply] returns the error of the fetch, with no cluster
    and no resource, although the instance has been created; its id is
    not handed back to the caller. *)
Theorem Apply_master_poll_error E r actual expected w pool script n1 n2
    created k e :
  IsEqual E actual expected = (false, None) →
  ResourceGroup.ServerPool_ r = Some pool →
  ServerPool.Type_ pool = ServerPoolTypeMaster →
  BuildBootstrapScript E (ServerPool.BootstrapScripts pool)
    (with_port (cluster w)) = (script, None) →
  pick_networks (fst (Network_List (Sdk E))) = (Some n1, Some n2) →
  let input :=
    createInput_of pool (fst (Images_List (Sdk E) imageQuery)) n1 n2 script in
  Instances_Create (Sdk E) input = (Some created, None) →
  k < MasterIPAttempts →
  (∀ j, j < k → pending (fetch E w (Instance.ID created) j)) →
  failed e (fetch E w (Instance.ID created) k) →
  outcome (Apply E r actual expected) w = Done (None, None, Some e)
  ∧ creates (trace (after (Apply E r actual expected) w))
    = (creates (trace w) ++ [input])%list.
Proof.
  intros Hcmp Hpool Htype Hscript Hnets input Hcreate Hk Hpre Hfail.
  unfold outcome, after.
  rewrite (Apply_diverged E r actual expected pool) by done.
  rewrite Apply_discover_other by (rewrite Htype; discriminate).
  rewrite Apply_provision_paths. simpl. rewrite Hscript, Hnets.
  fold input. rewrite Hcreate.
  rewrite Apply_await_master by done.
  rewrite (getMasterIP_stops E (Instance.ID created)
             (extend w (provision_calls input) (with_port (cluster w))) k Hk
             Hpre)
    by (intros Hp; by apply (pending_not_failed _ e Hp)).
  change (fetch E (extend w (provision_calls input) (with_port (cluster w)))
            (Instance.ID created) k)
    with (fetch E w (Instance.ID created) k).
  unfold failed in Hfail.
  destruct (fetch E w (Instance.ID created) k) as [[inst|] [e'|]];
    simplify_eq/=;
    (split; [done|]);
    rewrite !creates_app, creates_rounds_trace; simpl;
    by rewrite app_nil_r.
Qed.

Lemma Apply_master_poll_error_witness :
  let E := Scenario.env Scenario.fails_at_second Scenario.both_networks in
  let run := Apply E (Scenario.receiver "master" "")
               (Scenario.actual_of "master" "")
               (Scenario.expected_of "master" "") Scenario.world0 in
  fst run = Done (None, None, Some "unable to get machine")
  ∧ length (creates (trace (snd run))) = 1.
Proof.
  cbv zeta.
  destruct (Apply_master_poll_error
              (Scenario.env Scenario.fails_at_second Scenario.both_networks)
              (Scenario.receiver "master" "") (Scenario.actual_of "master" "")
              (Scenario.expected_of "master" "") Scenario.world0
              (Scenario.pool "master")
              "bootstrap/triton_k8s_ubuntu_16.04.sh"
              {| Network.Id := "net-public"; Network.Name := NetworkName |}
              {| Network.Id := "net-fabric"; Network.Name := FabricNetwork |}
              {| Instance.ID := "i-123"; Instance.Name := "demo-master";
                 Instance.IPs := [] |}
              1 "unable to get machine") as [Hout Hcreates];
    [ reflexivity | reflexivity | reflexivity | reflexivity | reflexivity
    | reflexivity | unfold MasterIPAttempts; lia
    | intros [|j] Hj; [reflexivity | lia] | reflexivity | ].
  unfold outcome, after in *. rewrite Hout, Hcreates. by split.
Defined.

Lemma Actual_only_reads_witness :
  after (Actual (Scenario.env Scenario.never_ready Scenario.both_networks)
           (Scenario.receiver "node" "i-9")) Scenario.world0
  = last_fetch Scenario.world0 "i-9" 0.
Proof.
  apply (proj2 (proj2 (proj2 (Actual_only_reads
           (Scenario.env Scenario.never_ready Scenario.both_networks)
           (Scenario.receiver "node" "i-9") Scenario.world0))));
    discriminate.
Defined.
